(** * MoltWorker: gateway process supervision and the access middleware

    A shallow embedding of [src/gateway/process.ts] and
    [src/auth/middleware.ts].  Asynchronous functions are sequential here
    (every [await] is a call whose result is either a value or a thrown
    value), calls into the sandbox SDK and into Hono are calls to an
    oracle acting on an abstract host state, and every such call is
    recorded, with its outcome, in the list of events of the run. *)

From Stdlib Require Import Bool List String Ascii ZArith.
Import ListNotations.

Local Open Scope string_scope.
Local Open Scope list_scope.

(** ** JavaScript values and control flow shared by both files *)
Module Js.

Notation "a +++ b" := (String.append a b) (at level 60, right associativity).

(** [s.startsWith(pat)] *)
Definition startsWith (s pat : string) : bool := String.prefix pat s.

(** [s.includes(pat)]: [pat] occurs at some offset of [s]. *)
Fixpoint includes (s pat : string) : bool :=
  String.prefix pat s ||
  match s with
  | EmptyString => false
  | String _ rest => includes rest pat
  end.

(** [s.split(sep)] for a separator of one character: never empty. *)
Fixpoint split (sep : ascii) (s : string) : list string :=
  match s with
  | EmptyString => [EmptyString]
  | String c rest =>
      if Ascii.eqb c sep then EmptyString :: split sep rest
      else match split sep rest with
           | [] => [String c EmptyString]
           | piece :: pieces => String c piece :: pieces
           end
  end.

(** White space of [String.prototype.trim] among the code units below 256
    (header values are byte strings): TAB, LF, VT, FF, CR, SP and NBSP. *)
Definition isWhiteSpace (c : ascii) : bool :=
  let n := nat_of_ascii c in
  Nat.eqb n 9 || Nat.eqb n 10 || Nat.eqb n 11 || Nat.eqb n 12 ||
  Nat.eqb n 13 || Nat.eqb n 32 || Nat.eqb n 160.

Fixpoint trimStart (s : string) : string :=
  match s with
  | EmptyString => EmptyString
  | String c rest => if isWhiteSpace c then trimStart rest else s
  end.

Fixpoint trimEnd (s : string) : string :=
  match s with
  | EmptyString => EmptyString
  | String c rest =>
      match trimEnd rest with
      | EmptyString => if isWhiteSpace c then EmptyString else String c EmptyString
      | kept => String c kept
      end
  end.

Definition trim (s : string) : string := trimEnd (trimStart s).

(** Truthiness of a string. *)
Definition truthy (s : string) : bool :=
  match s with EmptyString => false | _ => true end.

(** [a || b] on strings. *)
Definition orElse (a b : string) : string := if truthy a then a else b.

(** What a [throw] carries: an [Error] (or a subclass, with its [name])
    and its [message], or any other value. *)
Inductive Thrown : Type :=
| ErrorObj (name message : string)
| NonError (repr : string).

(** [new Error(message)] *)
Definition newError (message : string) : Thrown := ErrorObj "Error" message.

(** Arguments of [console.log] and [console.error]. *)
Inductive LogArg : Type :=
| LStr (s : string)
| LNum (z : Z)
| LVal (v : Thrown)
| LKeys (ks : list string).

Inductive LogLevel : Type := LevelLog | LevelError.

(** A run from a host state: the host state reached, the events in the
    order they happened, and the value returned or thrown. *)
Record Run (H E A : Type) : Type := mkRun {
  final : H;
  events : list E;
  result : Thrown + A
}.
Arguments mkRun {H E A} _ _ _.
Arguments final {H E A} _.
Arguments events {H E A} _.
Arguments result {H E A} _.

Definition M (H E A : Type) : Type := H -> Run H E A.

Section Monad.
Context {H E : Type}.

Definition ret {A} (a : A) : M H E A := fun h => mkRun h [] (inr a).

Definition throw {A} (e : Thrown) : M H E A := fun h => mkRun h [] (inl e).

Definition bind {A B} (m : M H E A) (k : A -> M H E B) : M H E B :=
  fun h =>
    match m h with
    | mkRun h1 evs1 (inl e) => mkRun h1 evs1 (inl e)
    | mkRun h1 evs1 (inr a) =>
        match k a h1 with
        | mkRun h2 evs2 r => mkRun h2 (evs1 ++ evs2) r
        end
    end.

(** [try { m } catch (e) { handler e }] *)
Definition tryCatch {A} (m : M H E A) (handler : Thrown -> M H E A) : M H E A :=
  fun h =>
    match m h with
    | mkRun h1 evs1 (inr a) => mkRun h1 evs1 (inr a)
    | mkRun h1 evs1 (inl e) =>
        match handler e h1 with
        | mkRun h2 evs2 r => mkRun h2 (evs1 ++ evs2) r
        end
    end.

(** An event that does not touch the host (console output, a timer). *)
Definition emit (ev : E) : M H E unit := fun h => mkRun h [ev] (inr tt).

(** A call to the host: the oracle [f] gives the new host state and the
    outcome, [ev] turns the outcome into the recorded event. *)
Definition call {A} (f : H -> H * (Thrown + A)) (ev : Thrown + A -> E) : M H E A :=
  fun h => let hr := f h in mkRun (fst hr) [ev (snd hr)] (snd hr).
End Monad.

(** Every event of every run of [m] satisfies [P]. *)
Definition emitsOnly {H E A : Type} (P : E -> Prop) (m : M H E A) : Prop :=
  forall h, Forall P (events (m h)).

Notation "x <- m ;; k" := (bind m (fun x => k))
  (at level 61, m at next level, right associativity).
Notation "m ;;; k" := (bind m (fun _ => k))
  (at level 61, right associativity).

End Js.

(** ** src/gateway/process.ts *)
Module Gateway.
Import Js.

(** The fields of the SDK's [Process] that the file reads. *)
Record Process : Type := mkProcess {
  id : string;
  command : string;
  status : string
}.

(** [{ stdout, stderr }] of [getLogs()] *)
Record Logs : Type := mkLogs { stdout : string; stderr : string }.

(** [Record<string, string>] with its keys in insertion order. *)
Definition EnvVars : Type := list (string * string).

(** Options of [startProcess]: [env] is [undefined] when absent. *)
Record StartOptions : Type := mkStartOptions { opt_env : option EnvVars }.

(** Options of [waitForPort] *)
Record WaitOptions : Type := mkWaitOptions { mode : string; timeout : Z }.

Section Supervisor.
(** [MoltbotEnv] comes from [../types]; this file only passes it on. *)
Variable MoltbotEnv : Type.
(** Host state of the sandbox. *)
Variable H : Type.

Inductive Event : Type :=
| EvMountR2Storage (env : MoltbotEnv) (r : Thrown + unit)
| EvListProcesses (r : Thrown + list Process)
| EvStartProcess (cmd : string) (options : StartOptions) (r : Thrown + Process)
| EvWaitForPort (p : Process) (port : Z) (options : WaitOptions) (r : Thrown + unit)
| EvKill (p : Process) (r : Thrown + unit)
| EvGetLogs (p : Process) (r : Thrown + Logs)
| EvSetTimeout (ms : Z)
| EvConsole (lvl : LogLevel) (args : list LogArg).

(** The sandbox and what else the file imports: the SDK's [Sandbox] and
    [Process] methods, [mountR2Storage] of [./r2]. *)
Record Sandbox : Type := mkSandbox {
  sb_mountR2Storage : MoltbotEnv -> H -> H * (Thrown + unit);
  sb_listProcesses : H -> H * (Thrown + list Process);
  sb_startProcess : string -> StartOptions -> H -> H * (Thrown + Process);
  proc_waitForPort : Process -> Z -> WaitOptions -> H -> H * (Thrown + unit);
  proc_kill : Process -> H -> H * (Thrown + unit);
  proc_getLogs : Process -> H -> H * (Thrown + Logs)
}.

(** [MOLTBOT_PORT] and [STARTUP_TIMEOUT_MS] of [../config], and
    [buildEnvVars] of [./env]. *)
Variable MOLTBOT_PORT : Z.
Variable STARTUP_TIMEOUT_MS : Z.
Variable buildEnvVars : MoltbotEnv -> EnvVars.

Variable sandbox : Sandbox.

Definition Task (A : Type) : Type := M H Event A.

Definition consoleLog (args : list LogArg) : Task unit :=
  emit (EvConsole LevelLog args).
Definition consoleError (args : list LogArg) : Task unit :=
  emit (EvConsole LevelError args).

Definition mountR2Storage (env : MoltbotEnv) : Task unit :=
  call (sb_mountR2Storage sandbox env) (EvMountR2Storage env).
Definition listProcesses : Task (list Process) :=
  call (sb_listProcesses sandbox) EvListProcesses.
Definition startProcess (cmd : string) (options : StartOptions) : Task Process :=
  call (sb_startProcess sandbox cmd options) (EvStartProcess cmd options).
Definition waitForPort (p : Process) (port : Z) (options : WaitOptions) : Task unit :=
  call (proc_waitForPort sandbox p port options) (EvWaitForPort p port options).
Definition kill (p : Process) : Task unit :=
  call (proc_kill sandbox p) (EvKill p).
Definition getLogs (p : Process) : Task Logs :=
  call (proc_getLogs sandbox p) (EvGetLogs p).
(** [await new Promise(r => setTimeout(r, ms))] *)
Definition sleep (ms : Z) : Task unit := emit (EvSetTimeout ms).

Definition isGatewayProcess (cmd : string) : bool :=
  includes cmd "start-moltbot.sh" || includes cmd "clawdbot gateway".

Definition isCliCommand (cmd : string) : bool :=
  includes cmd "clawdbot devices" || includes cmd "clawdbot --version".

Definition isActive (st : string) : bool :=
  String.eqb st "starting" || String.eqb st "running".

(** The [for ... of] loop of [findExistingMoltbotProcess]: [Some proc] is
    its [return proc], [None] is running off the end of the list. *)
Fixpoint scanProcesses (processes : list Process) : option Process :=
  match processes with
  | [] => None
  | proc :: rest =>
      if isGatewayProcess (command proc) && negb (isCliCommand (command proc))
      then if isActive (status proc) then Some proc else scanProcesses rest
      else scanProcesses rest
  end.

Definition findExistingMoltbotProcess : Task (option Process) :=
  tryCatch
    (processes <- listProcesses ;;
     ret (scanProcesses processes))
    (fun e =>
       consoleLog [LStr "Could not list processes:"; LVal e] ;;;
       ret None).

Definition readinessOptions : WaitOptions :=
  mkWaitOptions "tcp" STARTUP_TIMEOUT_MS.

(** Lines 56 to 77 of [ensureMoltbotGateway]: [Some p] is the early
    [return existingProcess], [None] is falling through to the start. *)
Definition reuseExisting : Task (option Process) :=
  existingProcess <- findExistingMoltbotProcess ;;
  match existingProcess with
  | Some existing =>
      consoleLog [LStr "Found existing Moltbot process:"; LStr (id existing);
                  LStr "status:"; LStr (status existing)] ;;;
      tryCatch
        (consoleLog [LStr "Waiting for Moltbot gateway on port"; LNum MOLTBOT_PORT;
                     LStr "timeout:"; LNum STARTUP_TIMEOUT_MS] ;;;
         waitForPort existing MOLTBOT_PORT readinessOptions ;;;
         consoleLog [LStr "Moltbot gateway is reachable"] ;;;
         ret (Some existing))
        (fun e =>
           consoleLog [LStr "Existing process not reachable after full timeout, killing and restarting..."] ;;;
           tryCatch
             (kill existing)
             (fun killError =>
                consoleLog [LStr "Failed to kill process:"; LVal killError]) ;;;
           ret None)
  | None => ret None
  end.

Definition gatewayCommand : string :=
  "bash -c " +++ String "034" "/usr/local/bin/start-moltbot.sh > /tmp/moltbot-startup.log 2>&1"
             +++ String "034" "".

Definition readLogCommand : string := "cat /tmp/moltbot-startup.log".

Definition gatewayOptions (envVars : EnvVars) : StartOptions :=
  mkStartOptions (if (0 <? List.length (map fst envVars))%nat then Some envVars else None).

Definition failedPrefix : string := "Moltbot gateway failed".

(** [logErr instanceof Error && logErr.message.startsWith('Moltbot gateway failed')] *)
Definition isGatewayFailure (logErr : Thrown) : bool :=
  match logErr with
  | ErrorObj _ message => startsWith message failedPrefix
  | NonError _ => false
  end.

(** [logContent.stdout || logContent.stderr || '(no log output)'] *)
Definition fullLogOf (logContent : Logs) : string :=
  orElse (stdout logContent) (orElse (stderr logContent) "(no log output)").

Definition failureMessage (fullLog : string) : string :=
  "Moltbot gateway failed to start. Log: " +++ fullLog.

(** Lines 111 to 125: the fallback read of the log file, after
    [waitForPort] (or the [getLogs] behind it) threw [e]. *)
Definition readStartupLog (e : Thrown) : Task Process :=
  tryCatch
    (readLog <- startProcess readLogCommand (mkStartOptions None) ;;
     sleep 3000 ;;;
     logContent <- getLogs readLog ;;
     let fullLog := fullLogOf logContent in
     consoleError [LStr "[Gateway] startup log from file:"; LStr fullLog] ;;;
     throw (newError (failureMessage fullLog)))
    (fun logErr =>
       if isGatewayFailure logErr
       then throw logErr
       else consoleError [LStr "[Gateway] Failed to read log file:"; LVal logErr] ;;;
            throw e).

(** Lines 99 to 131 of [ensureMoltbotGateway]: the wait on the process
    just started. *)
Definition awaitGateway (process : Process) : Task Process :=
  tryCatch
    (consoleLog [LStr "[Gateway] Waiting for Moltbot gateway to be ready on port";
                 LNum MOLTBOT_PORT] ;;;
     waitForPort process MOLTBOT_PORT readinessOptions ;;;
     consoleLog [LStr "[Gateway] Moltbot gateway is ready!"] ;;;
     logs <- getLogs process ;;
     (if truthy (stdout logs)
      then consoleLog [LStr "[Gateway] stdout:"; LStr (stdout logs)] else ret tt) ;;;
     (if truthy (stderr logs)
      then consoleLog [LStr "[Gateway] stderr:"; LStr (stderr logs)] else ret tt) ;;;
     ret process)
    (fun e =>
       consoleError [LStr "[Gateway] waitForPort failed:"; LVal e] ;;;
       readStartupLog e) ;;;
  consoleLog [LStr "[Gateway] Verifying gateway health..."] ;;;
  ret process.

(** Lines 79 to 131 of [ensureMoltbotGateway]. *)
Definition startGateway (env : MoltbotEnv) : Task Process :=
  consoleLog [LStr "Starting new Moltbot gateway..."] ;;;
  let envVars := buildEnvVars env in
  let cmd := gatewayCommand in
  consoleLog [LStr "Starting process with command:"; LStr cmd] ;;;
  consoleLog [LStr "Environment vars being passed:"; LKeys (map fst envVars)] ;;;
  process <- tryCatch
    (started <- startProcess cmd (gatewayOptions envVars) ;;
     consoleLog [LStr "Process started with id:"; LStr (id started);
                 LStr "status:"; LStr (status started)] ;;;
     ret started)
    (fun startErr =>
       consoleError [LStr "Failed to start process:"; LVal startErr] ;;;
       throw startErr) ;;
  awaitGateway process.

Definition ensureMoltbotGateway (env : MoltbotEnv) : Task Process :=
  mountR2Storage env ;;;
  reused <- reuseExisting ;;
  match reused with
  | Some existingProcess => ret existingProcess
  | None => startGateway env
  end.

(** Discovery in the words of the specification: of the listed processes
    whose command matches the launch signature and no excluded pattern,
    the first whose status is [starting] or [running]. *)
Definition matchesService (p : Process) : bool :=
  isGatewayProcess (command p) && negb (isCliCommand (command p)).

Definition discoverSpec (processes : list Process) : option Process :=
  find (fun p => isActive (status p)) (filter matchesService processes).

(** *** What a run did to the host, read off its events *)

(** The processes [kill()] was called on, in order. *)
Fixpoint kills (evs : list Event) : list Process :=
  match evs with
  | [] => []
  | EvKill p _ :: rest => p :: kills rest
  | _ :: rest => kills rest
  end.

(** The commands [startProcess] was called with, in order. *)
Fixpoint starts (evs : list Event) : list string :=
  match evs with
  | [] => []
  | EvStartProcess cmd _ _ :: rest => cmd :: starts rest
  | _ :: rest => starts rest
  end.

(** The processes [getLogs()] was called on, in order. *)
Fixpoint logReads (evs : list Event) : list Process :=
  match evs with
  | [] => []
  | EvGetLogs p _ :: rest => p :: logReads rest
  | _ :: rest => logReads rest
  end.

(** The readiness waits: process, port and options, in order. *)
Fixpoint waits (evs : list Event) : list (Process * Z * WaitOptions) :=
  match evs with
  | [] => []
  | EvWaitForPort p port options _ :: rest => (p, port, options) :: waits rest
  | _ :: rest => waits rest
  end.

(** The console output of lines 80 to 86, before the gateway is started. *)
Definition launchLogs (env : MoltbotEnv) : list Event :=
  [EvConsole LevelLog [LStr "Starting new Moltbot gateway..."];
   EvConsole LevelLog [LStr "Starting process with command:"; LStr gatewayCommand];
   EvConsole LevelLog [LStr "Environment vars being passed:";
                       LKeys (map fst (buildEnvVars env))]].

(** What the [catch] of line 119 makes of [logErr] after the readiness
    error [e]: the console output and the value thrown. *)
Definition afterFailedRead (e logErr : Thrown) : list Event * Thrown :=
  if isGatewayFailure logErr then ([], logErr)
  else ([EvConsole LevelError [LStr "[Gateway] Failed to read log file:"; LVal logErr]], e).

(** Events that are no call to [kill()]. *)
Definition notKill (ev : Event) : Prop :=
  match ev with EvKill _ _ => False | _ => True end.

(** Events that are no call to [startProcess] with the gateway's command. *)
Definition notLaunch (ev : Event) : Prop :=
  match ev with EvStartProcess cmd _ _ => cmd <> gatewayCommand | _ => True end.

(** Events that are no call to [startProcess] or [getLogs()]. *)
Definition noStartNoLogs (ev : Event) : Prop :=
  match ev with
  | EvStartProcess _ _ _ | EvGetLogs _ _ => False
  | _ => True
  end.

(** Events that are no readiness wait, or a wait on [MOLTBOT_PORT] with
    [readinessOptions]. *)
Definition waitsInFull (ev : Event) : Prop :=
  match ev with
  | EvWaitForPort _ port options _ => port = MOLTBOT_PORT /\ options = readinessOptions
  | _ => True
  end.

(** The outcome of a [getLogs()] gave nothing to report: the call threw,
    or both streams were empty. *)
Definition emptyOrUnavailable (r : Thrown + Logs) : Prop :=
  match r with
  | inl _ => True
  | inr logs => stdout logs = "" /\ stderr logs = ""
  end.

(** The reading of a run in which the log file is dumped only after the
    host's log API was asked about [p] and gave nothing: every spawn of
    [readLogCommand] comes after a [getLogs()] on [p] whose outcome was
    empty or unavailable. *)
Definition consultsLogApiFirst (evs : list Event) (p : Process) : Prop :=
  forall before options r after,
    evs = before ++ EvStartProcess readLogCommand options r :: after ->
    exists lr, In (EvGetLogs p lr) before /\ emptyOrUnavailable lr.

End Supervisor.

Arguments EvMountR2Storage {MoltbotEnv} env r.
Arguments EvListProcesses {MoltbotEnv} r.
Arguments EvStartProcess {MoltbotEnv} cmd options r.
Arguments EvWaitForPort {MoltbotEnv} p port options r.
Arguments EvKill {MoltbotEnv} p r.
Arguments EvGetLogs {MoltbotEnv} p r.
Arguments EvSetTimeout {MoltbotEnv} ms.
Arguments EvConsole {MoltbotEnv} lvl args.
Arguments mkSandbox {MoltbotEnv H} _ _ _ _ _ _.
Arguments sb_mountR2Storage {MoltbotEnv H} _ _ _.
Arguments sb_listProcesses {MoltbotEnv H} _ _.
Arguments sb_startProcess {MoltbotEnv H} _ _ _ _.
Arguments proc_waitForPort {MoltbotEnv H} _ _ _ _ _.
Arguments proc_kill {MoltbotEnv H} _ _ _.
Arguments proc_getLogs {MoltbotEnv H} _ _ _.
Arguments mountR2Storage {MoltbotEnv H} sandbox env.
Arguments listProcesses {MoltbotEnv H} sandbox.
Arguments startProcess {MoltbotEnv H} sandbox cmd options.
Arguments waitForPort {MoltbotEnv H} sandbox p port options.
Arguments kill {MoltbotEnv H} sandbox p.
Arguments getLogs {MoltbotEnv H} sandbox p.
Arguments findExistingMoltbotProcess {MoltbotEnv H} sandbox.
Arguments reuseExisting {MoltbotEnv H} MOLTBOT_PORT STARTUP_TIMEOUT_MS sandbox.
Arguments readStartupLog {MoltbotEnv H} sandbox e.
Arguments startGateway {MoltbotEnv H} MOLTBOT_PORT STARTUP_TIMEOUT_MS buildEnvVars sandbox env.
Arguments ensureMoltbotGateway {MoltbotEnv H} MOLTBOT_PORT STARTUP_TIMEOUT_MS buildEnvVars sandbox env.
Arguments kills {MoltbotEnv} evs.
Arguments starts {MoltbotEnv} evs.
Arguments logReads {MoltbotEnv} evs.
Arguments waits {MoltbotEnv} evs.
Arguments consultsLogApiFirst {MoltbotEnv} evs p.
Arguments launchLogs {MoltbotEnv} buildEnvVars env.
Arguments afterFailedRead {MoltbotEnv} e logErr.
Arguments isGatewayFailure : simpl never.
Arguments mountR2Storage : simpl never.
Arguments findExistingMoltbotProcess : simpl never.
Arguments reuseExisting : simpl never.
Arguments readStartupLog : simpl never.
Arguments awaitGateway : simpl never.
Arguments startGateway : simpl never.
Arguments notKill {MoltbotEnv} ev.
Arguments notLaunch {MoltbotEnv} ev.
Arguments noStartNoLogs {MoltbotEnv} ev.
Arguments awaitGateway {MoltbotEnv H} MOLTBOT_PORT STARTUP_TIMEOUT_MS sandbox process.
Arguments waitsInFull {MoltbotEnv} MOLTBOT_PORT STARTUP_TIMEOUT_MS ev.

End Gateway.


(** ** src/auth/middleware.ts *)
Module Auth.
Import Js.

(** ['json' | 'html'] *)
Inductive ResponseType : Type := TypeJson | TypeHtml.

(** [redirectOnMissing] is optional: [None] is a missing field. *)
Record AccessMiddlewareOptions : Type := mkOptions {
  type : ResponseType;
  redirectOnMissing : option bool
}.

(** The bindings of [MoltbotEnv] that the file reads; each may be
    [undefined]. *)
Record MoltbotEnv : Type := mkEnv {
  DEV_MODE : option string;
  E2E_TEST_MODE : option string;
  CF_ACCESS_TEAM_DOMAIN : option string;
  CF_ACCESS_AUD : option string;
  BASIC_AUTH_USER : option string;
  BASIC_AUTH_PASS : option string
}.

(** A request, as far as the file looks at it: the value of a header by
    name ([c.req.header(name)], [c.req.raw.headers.get(name)]). *)
Record Request : Type := mkRequest { header : string -> option string }.

(** The value stored under ['accessUser']. *)
Record AccessUser : Type := mkUser { email : string; name : option string }.

(** What [verifyAccessJWT] of [./jwt] resolves to, as far as it is read. *)
Record JWTPayload : Type := mkPayload {
  payload_email : string;
  payload_name : option string
}.

(** [c.redirect(location, status)], [c.json(object, status)] with the
    object as its fields in order, [c.html(html, status)]. *)
Inductive Response : Type :=
| Redirect (location : string) (code : Z)
| Json (fields : list (string * string)) (code : Z)
| Html (html : string) (code : Z).

Definition statusCode (r : Response) : Z :=
  match r with
  | Redirect _ code => code
  | Json _ code => code
  | Html _ code => code
  end.

Definition isDevMode (env : MoltbotEnv) : bool :=
  match DEV_MODE env with Some v => String.eqb v "true" | None => false end.

Definition isE2ETestMode (env : MoltbotEnv) : bool :=
  match E2E_TEST_MODE env with Some v => String.eqb v "true" | None => false end.

(** [v] when it is truthy: the test of [if (v)] and the value it guards. *)
Definition whenTruthy (v : option string) : option string :=
  match v with
  | Some s => if truthy s then Some s else None
  | None => None
  end.

Definition extractJWT (req : Request) : option string :=
  let jwtHeader := header req "CF-Access-JWT-Assertion" in
  let jwtCookie :=
    match header req "Cookie" with
    | None => None
    | Some cookies =>
        match find (fun cookie => startsWith (trim cookie) "CF_Authorization=")
                   (split ";" cookies) with
        | None => None
        | Some cookie => nth_error (split "=" cookie) 1
        end
    end in
  match whenTruthy jwtHeader with
  | Some jwt => Some jwt
  | None => whenTruthy jwtCookie
  end.

(** A template literal, line by line. *)
Definition template (lines : list string) : string :=
  String.concat (String "010" "") lines.

Definition quoted (s : string) : string := String "034" s +++ String "034" "".

Definition missingTokenPage (teamDomain : string) : string :=
  template [
    "";
    "            <html>";
    "              <body>";
    "                <h1>Unauthorized</h1>";
    "                <p>Missing Cloudflare Access token.</p>";
    "                <a href=" +++ quoted ("https://" +++ teamDomain) +++ ">Login</a>";
    "              </body>";
    "            </html>";
    "          "].

Definition invalidSessionPage (teamDomain : string) : string :=
  template [
    "";
    "            <html>";
    "              <body>";
    "                <h1>Unauthorized</h1>";
    "                <p>Your Cloudflare Access session is invalid or expired.</p>";
    "                <a href=" +++ quoted ("https://" +++ teamDomain) +++ ">Login again</a>";
    "              </body>";
    "            </html>";
    "          "].

Definition notConfiguredPage : string :=
  template [
    "";
    "        <html>";
    "          <body>";
    "            <h1>Authentication Not Configured</h1>";
    "            <p>Set CF_ACCESS_TEAM_DOMAIN/CF_ACCESS_AUD (Zero Trust) or BASIC_AUTH_USER/BASIC_AUTH_PASS (Basic Auth) environment variables.</p>";
    "          </body>";
    "        </html>";
    "      "].

Definition devUser : AccessUser := mkUser "dev@localhost" (Some "Dev User").

Definition basicAuthUser : AccessUser := mkUser "user@basic-auth" (Some "Authorized User").

Section Middleware.
(** State of whatever lies behind the middleware (the application, the
    key set of the identity provider). *)
Variable H : Type.

(** The Hono context, as far as it changes: the variable ['accessUser']
    and the state behind. *)
Record Context : Type := mkContext {
  accessUser : option AccessUser;
  app : H
}.

Inductive Event : Type :=
| EvVerifyAccessJWT (jwt teamDomain expectedAud : string) (r : Thrown + JWTPayload)
| EvNext (user : option AccessUser) (r : Thrown + unit)
| EvBasicAuth (username password : string) (r : Thrown + option Response)
| EvConsole (lvl : LogLevel) (args : list LogArg).

(** A downstream handler: [Next]. *)
Definition Next : Type := Context -> Context * (Thrown + unit).

(** [verifyAccessJWT] of [./jwt] and [basicAuth] of [hono/basic-auth]. *)
Variable verifyAccessJWT : string -> string -> string -> H -> H * (Thrown + JWTPayload).
Variable basicAuth :
  string -> string -> Next -> Context -> Context * (Thrown + option Response).

Definition Task (A : Type) : Type := M Context Event A.

(** [c.set('accessUser', user)] *)
Definition setAccessUser (user : AccessUser) : Task unit :=
  fun c => mkRun (mkContext (Some user) (app c)) [] (inr tt).

(** [next()], recorded with the ['accessUser'] it is called under. *)
Definition callNext (next : Next) : Task unit :=
  fun c => call next (EvNext (accessUser c)) c.

Definition callVerify (jwt teamDomain expectedAud : string) : Task JWTPayload :=
  call (fun c =>
          let hr := verifyAccessJWT jwt teamDomain expectedAud (app c) in
          (mkContext (accessUser c) (fst hr), snd hr))
       (EvVerifyAccessJWT jwt teamDomain expectedAud).

Definition callBasicAuth (username password : string) (next : Next)
  : Task (option Response) :=
  call (basicAuth username password next) (EvBasicAuth username password).

Definition consoleError (args : list LogArg) : Task unit :=
  emit (EvConsole LevelError args).

(** The function returned by [createAccessMiddleware options], applied to
    a context with bindings [env] and request [req], and to [next].
    [None] is the [undefined] of [return next()].  Inside the [try] of
    line 98 the promise of [next()] is returned without [await], so a
    rejection of it is not seen by the [catch]: the [try] covers
    [verifyAccessJWT] and [c.set], and [next] is called after it. *)
Definition createAccessMiddleware (options : AccessMiddlewareOptions)
    (env : MoltbotEnv) (req : Request) (next : Next) : Task (option Response) :=
  let type := type options in
  let redirectOnMissing :=
    match redirectOnMissing options with Some b => b | None => false end in
  if isDevMode env || isE2ETestMode env then
    setAccessUser devUser ;;;
    callNext next ;;;
    ret None
  else
    match whenTruthy (CF_ACCESS_TEAM_DOMAIN env), whenTruthy (CF_ACCESS_AUD env) with
    | Some teamDomain, Some expectedAud =>
        match whenTruthy (extractJWT req) with
        | None =>
            match type, redirectOnMissing with
            | TypeHtml, true => ret (Some (Redirect ("https://" +++ teamDomain) 302))
            | TypeJson, _ =>
                ret (Some (Json
                  [("error", "Unauthorized");
                   ("hint", "Missing Cloudflare Access JWT. Ensure this route is protected by Cloudflare Access.")]
                  401))
            | TypeHtml, false => ret (Some (Html (missingTokenPage teamDomain) 401))
            end
        | Some jwt =>
            rejected <- tryCatch
              (payload <- callVerify jwt teamDomain expectedAud ;;
               setAccessUser (mkUser (payload_email payload) (payload_name payload)) ;;;
               ret None)
              (fun err =>
                 consoleError [LStr "Access JWT verification failed:"; LVal err] ;;;
                 match type with
                 | TypeJson =>
                     ret (Some (Json
                       [("error", "Unauthorized");
                        ("details", match err with
                                    | ErrorObj _ message => message
                                    | NonError _ => "JWT verification failed"
                                    end)]
                       401))
                 | TypeHtml => ret (Some (Html (invalidSessionPage teamDomain) 401))
                 end) ;;
            match rejected with
            | Some response => ret (Some response)
            | None => callNext next ;;; ret None
            end
        end
    | _, _ =>
        match whenTruthy (BASIC_AUTH_USER env), whenTruthy (BASIC_AUTH_PASS env) with
        | Some username, Some password =>
            setAccessUser basicAuthUser ;;;
            callBasicAuth username password next
        | _, _ =>
            match type with
            | TypeJson =>
                ret (Some (Json
                  [("error", "Authentication not configured");
                   ("hint", "Set CF_ACCESS_TEAM_DOMAIN/CF_ACCESS_AUD for Zero Trust, or BASIC_AUTH_USER/BASIC_AUTH_PASS for Basic Auth.")]
                  500))
            | TypeHtml => ret (Some (Html notConfiguredPage 500))
            end
        end
    end.

(** The ['accessUser'] values [next()] was called under, in order. *)
Fixpoint nexts (evs : list Event) : list (option AccessUser) :=
  match evs with
  | [] => []
  | EvNext user _ :: rest => user :: nexts rest
  | _ :: rest => nexts rest
  end.

(** The credentials the Basic Auth middleware was built and run with. *)
Fixpoint basicAuthCalls (evs : list Event) : list (string * string) :=
  match evs with
  | [] => []
  | EvBasicAuth username password _ :: rest => (username, password) :: basicAuthCalls rest
  | _ :: rest => basicAuthCalls rest
  end.

End Middleware.

Arguments mkContext {H} _ _.
Arguments accessUser {H} _.
Arguments app {H} _.
Arguments createAccessMiddleware {H} verifyAccessJWT basicAuth options env req next.

End Auth.


(** ** Concrete hosts *)
Module Scenarios.
Import Js.

(** A sandbox that answers from a script; its state counts the calls. *)
Record Script : Type := mkScript {
  listing : Thrown + list Gateway.Process;
  ready : Gateway.Process -> bool;
  killing : Thrown + unit;
  spawning : string -> Thrown + Gateway.Process;
  logging : Gateway.Process -> Thrown + Gateway.Logs
}.

Definition portTimeout : Thrown := ErrorObj "Error" "Port not ready within timeout".

Definition scripted (s : Script) : Gateway.Sandbox Auth.MoltbotEnv nat :=
  Gateway.mkSandbox
    (fun (_ : Auth.MoltbotEnv) n => (S n, inr tt))
    (fun n => (S n, listing s))
    (fun cmd _ n => (S n, spawning s cmd))
    (fun p _ _ n => (S n, if ready s p then inr tt else inl portTimeout))
    (fun _ n => (S n, killing s))
    (fun p n => (S n, logging s p)).

Definition port : Z := 8080.
Definition startupTimeout : Z := 30000.

Definition sampleEnvVars (env : Auth.MoltbotEnv) : Gateway.EnvVars :=
  match Auth.DEV_MODE env with
  | Some v => [("CLAWDBOT_DEV_MODE", v)]
  | None => []
  end.

Definition noEnv : Auth.MoltbotEnv := Auth.mkEnv None None None None None None.

Definition ensure (s : Script) : M nat (Gateway.Event Auth.MoltbotEnv) Gateway.Process :=
  Gateway.ensureMoltbotGateway port startupTimeout sampleEnvVars (scripted s) noEnv.

Definition gateway : Gateway.Process :=
  Gateway.mkProcess "proc-1" "/usr/local/bin/start-moltbot.sh" "running".
Definition crashed : Gateway.Process :=
  Gateway.mkProcess "proc-0" "clawdbot gateway --port 8080" "exited".
Definition pairing : Gateway.Process :=
  Gateway.mkProcess "proc-2" "clawdbot devices list --url ws://localhost:8080 # clawdbot gateway" "running".
Definition fresh : Gateway.Process :=
  Gateway.mkProcess "proc-3" Gateway.gatewayCommand "starting".
Definition reader : Gateway.Process :=
  Gateway.mkProcess "proc-4" Gateway.readLogCommand "running".

Definition spawnAll (cmd : string) : Thrown + Gateway.Process :=
  if String.eqb cmd Gateway.readLogCommand then inr reader else inr fresh.

Definition isId (name : string) (p : Gateway.Process) : bool :=
  String.eqb (Gateway.id p) name.

Definition bootLogs : Gateway.Logs := Gateway.mkLogs "gateway: booting" "".
Definition fileLogs : Gateway.Logs := Gateway.mkLogs "" "config: missing token".

Definition logsOf (p : Gateway.Process) : Thrown + Gateway.Logs :=
  if isId "proc-4" p then inr fileLogs else inr bootLogs.

(** A healthy gateway is listed and accepts connections. *)
Definition healthy : Script :=
  mkScript (inr [crashed; pairing; gateway]) (isId "proc-1") (inr tt) spawnAll logsOf.

(** The listed gateway is stuck and cannot be killed; a fresh one comes up. *)
Definition stuck : Script :=
  mkScript (inr [gateway]) (isId "proc-3")
    (inl (ErrorObj "Error" "No such process")) spawnAll logsOf.

(** The process table cannot be read; a fresh gateway comes up. *)
Definition unreachable : Script :=
  mkScript (inl (ErrorObj "Error" "Sandbox unreachable")) (isId "proc-3")
    (inr tt) spawnAll logsOf.

(** Nothing can be started. *)
Definition startFailure : Thrown := ErrorObj "Error" "Container out of memory".
Definition exhausted : Script :=
  mkScript (inr []) (fun _ => false) (inr tt) (fun _ => inl startFailure) logsOf.

(** The fresh gateway never opens its port; the log file can be read. *)
Definition crashing : Script :=
  mkScript (inr [crashed]) (fun _ => false) (inr tt) spawnAll logsOf.

(** The fresh gateway never opens its port, and the command that reads
    the log file cannot be started. *)
Definition readerFailure : Thrown := ErrorObj "Error" "Sandbox unreachable".
Definition blind : Script :=
  mkScript (inr []) (fun _ => false) (inr tt)
    (fun cmd => if String.eqb cmd Gateway.readLogCommand then inl readerFailure else inr fresh)
    logsOf.

(** As [blind], with a host whose error message begins like the
    supervisor's own. *)
Definition lookalike : Thrown :=
  ErrorObj "Error" "Moltbot gateway failed health probe; sandbox is restarting".
Definition misleading : Script :=
  mkScript (inr []) (fun _ => false) (inr tt)
    (fun cmd => if String.eqb cmd Gateway.readLogCommand then inl lookalike else inr fresh)
    logsOf.

(** The bucket cannot be mounted. *)
Definition mountFailure : Thrown := ErrorObj "Error" "R2 bucket not found".
Definition unmountable : Gateway.Sandbox Auth.MoltbotEnv nat :=
  Gateway.mkSandbox
    (fun (_ : Auth.MoltbotEnv) n => (S n, inl mountFailure))
    (fun n => (S n, inr [gateway]))
    (fun cmd _ n => (S n, spawnAll cmd))
    (fun _ _ _ n => (S n, inr tt))
    (fun _ n => (S n, inr tt))
    (fun p n => (S n, logsOf p)).

(** Only a crashed gateway and a CLI command are listed; a fresh gateway
    comes up. *)
Definition cold : Script :=
  mkScript (inr [crashed; pairing]) (isId "proc-3") (inr tt) spawnAll logsOf.

(** The fresh gateway comes up, but its logs cannot be read. *)
Definition logFailure : Thrown := ErrorObj "Error" "Log stream closed".
Definition mute : Script :=
  mkScript (inr []) (isId "proc-3") (inr tt) spawnAll
    (fun p => if isId "proc-3" p then inl logFailure else inr fileLogs).

(** Requests and handlers for the middleware; the state behind is a count
    of the requests that reached the application. *)
Definition requestOf (headers : list (string * string)) : Auth.Request :=
  Auth.mkRequest (fun name =>
    match find (fun kv => String.eqb (fst kv) name) headers with
    | Some kv => Some (snd kv)
    | None => None
    end).

Definition handler : Auth.Next nat :=
  fun c => (Auth.mkContext (Auth.accessUser c) (S (Auth.app c)), inr tt).

Definition verifier (jwt teamDomain expectedAud : string) (n : nat)
  : nat * (Thrown + Auth.JWTPayload) :=
  if String.eqb jwt "good.jwt.token"
  then (n, inr (Auth.mkPayload "ada@example.com" (Some "Ada")))
  else (n, inl (ErrorObj "Error" "JWT signature mismatch")).

Definition denyAll (username password : string) (next : Auth.Next nat) (c : Auth.Context nat)
  : Auth.Context nat * (Thrown + option Auth.Response) :=
  (c, inr (Some (Auth.Html "Unauthorized" 401))).

Definition middleware (options : Auth.AccessMiddlewareOptions) (env : Auth.MoltbotEnv)
    (req : Auth.Request) : M (Auth.Context nat) Auth.Event (option Auth.Response) :=
  Auth.createAccessMiddleware verifier denyAll options env req handler.

Definition accessEnv : Auth.MoltbotEnv :=
  Auth.mkEnv None None (Some "team.cloudflareaccess.com") (Some "aud-123")
    (Some "admin") (Some "secret").

Definition devEnv : Auth.MoltbotEnv :=
  Auth.mkEnv (Some "true") None (Some "team.cloudflareaccess.com") (Some "aud-123")
    (Some "admin") (Some "secret").

Definition anonymous : Auth.Request := requestOf [("Accept", "text/html")].
Definition forged : Auth.Request :=
  requestOf [("Cookie", "theme=dark; CF_Authorization=bad.jwt.token")].
Definition signedIn : Auth.Request :=
  requestOf [("CF-Access-JWT-Assertion", "good.jwt.token")].

Definition start : Auth.Context nat := Auth.mkContext None 0.

(** Only the audience of Access is configured. *)
Definition basicEnv : Auth.MoltbotEnv :=
  Auth.mkEnv None None None (Some "aud-123") (Some "admin") (Some "secret").

(** Access lacks its audience and Basic Auth its password. *)
Definition bareEnv : Auth.MoltbotEnv :=
  Auth.mkEnv None (Some "false") (Some "team.cloudflareaccess.com") (Some "")
    (Some "admin") None.

Definition twice : Auth.Request :=
  requestOf [("CF-Access-JWT-Assertion", "good.jwt.token");
             ("Cookie", "CF_Authorization=bad.jwt.token")].

Definition padded : Auth.Request :=
  requestOf [("CF-Access-JWT-Assertion", "");
             ("Cookie", "CF_Authorization=abc.def.ghi==; theme=dark")].

Definition handlerFailure : Thrown := ErrorObj "Error" "Gateway unavailable".
Definition failing : Auth.Next nat := fun c => (c, inl handlerFailure).

End Scenarios.


(** * Properties *)

(** ** Strings and runs *)
Module JsFacts.
Import Js.

Lemma prefix_iff (pat s : string) :
  String.prefix pat s = true <-> exists rest, s = pat +++ rest.
Proof.
  revert s; induction pat as [|c pat IH]; intros s.
  - split; [intros _; exists s; reflexivity | intros _; destruct s; reflexivity].
  - destruct s as [|d s]; simpl.
    + split; [discriminate | intros [rest Hrest]; discriminate].
    + destruct (Ascii.ascii_dec c d) as [->|Hcd].
      * rewrite IH. split; intros [rest Hrest]; exists rest; congruence.
      * split; [discriminate | intros [rest Hrest]; congruence].
Qed.

(** [includes] finds exactly the strings that contain the pattern. *)
Lemma includes_iff (s pat : string) :
  includes s pat = true <-> exists before after, s = before +++ pat +++ after.
Proof.
  induction s as [|c s IH]; cbn [includes].
  - rewrite orb_false_r, prefix_iff. split.
    + intros [rest Hrest]; exists "", rest; exact Hrest.
    + intros [[|d before] [after Heq]]; [exists after; exact Heq | discriminate].
  - rewrite orb_true_iff, IH, prefix_iff. split.
    + intros [[rest Hrest] | [before [after Heq]]].
      * exists "", rest; exact Hrest.
      * exists (String c before), after; simpl; congruence.
    + intros [[|d before] [after Heq]]; simpl in Heq.
      * left; exists after; exact Heq.
      * right; exists before, after; congruence.
Qed.

Section Runs.
Context {H E : Type}.

Lemma bind_ok {A B} (m : M H E A) (k : A -> M H E B) (h : H) (a : A) :
  result (m h) = inr a ->
  bind m k h = mkRun (final (k a (final (m h))))
                     (events (m h) ++ events (k a (final (m h))))
                     (result (k a (final (m h)))).
Proof.
  unfold bind. destruct (m h) as [h1 evs1 r1]. simpl. intros ->.
  destruct (k a h1); reflexivity.
Qed.

Lemma bind_thrown {A B} (m : M H E A) (k : A -> M H E B) (h : H) (e : Thrown) :
  result (m h) = inl e ->
  bind m k h = mkRun (final (m h)) (events (m h)) (inl e).
Proof.
  unfold bind. destruct (m h) as [h1 evs1 r1]. simpl. intros ->. reflexivity.
Qed.

Lemma tryCatch_ok {A} (m : M H E A) (handler : Thrown -> M H E A) (h : H) (a : A) :
  result (m h) = inr a ->
  tryCatch m handler h = mkRun (final (m h)) (events (m h)) (inr a).
Proof.
  unfold tryCatch. destruct (m h) as [h1 evs1 r1]. simpl. intros ->. reflexivity.
Qed.

Lemma tryCatch_caught {A} (m : M H E A) (handler : Thrown -> M H E A) (h : H) (e : Thrown) :
  result (m h) = inl e ->
  tryCatch m handler h = mkRun (final (handler e (final (m h))))
                               (events (m h) ++ events (handler e (final (m h))))
                               (result (handler e (final (m h)))).
Proof.
  unfold tryCatch. destruct (m h) as [h1 evs1 r1]. simpl. intros ->.
  destruct (handler e h1); reflexivity.
Qed.

Variable P : E -> Prop.

Lemma emitsOnly_ret {A} (a : A) : emitsOnly P (ret (H:=H) a).
Proof. intros h; constructor. Qed.

Lemma emitsOnly_throw {A} (e : Thrown) : emitsOnly P (throw (H:=H) (A:=A) e).
Proof. intros h; constructor. Qed.

Lemma emitsOnly_emit (ev : E) : P ev -> emitsOnly P (emit (H:=H) ev).
Proof. intros Hev h; repeat constructor; exact Hev. Qed.

Lemma emitsOnly_call {A} (f : H -> H * (Thrown + A)) (ev : Thrown + A -> E) :
  (forall r, P (ev r)) -> emitsOnly P (call f ev).
Proof. intros Hev h; repeat constructor; apply Hev. Qed.

Lemma emitsOnly_bind {A B} (m : M H E A) (k : A -> M H E B) :
  emitsOnly P m -> (forall a, emitsOnly P (k a)) -> emitsOnly P (bind m k).
Proof.
  intros Hm Hk h. unfold bind. specialize (Hm h).
  destruct (m h) as [h1 evs1 [e|a]]; simpl in *; [exact Hm|].
  specialize (Hk a h1). destruct (k a h1) as [h2 evs2 r2]; simpl in *.
  apply Forall_app; split; assumption.
Qed.

Lemma emitsOnly_tryCatch {A} (m : M H E A) (handler : Thrown -> M H E A) :
  emitsOnly P m -> (forall e, emitsOnly P (handler e)) -> emitsOnly P (tryCatch m handler).
Proof.
  intros Hm Hh h. unfold tryCatch. specialize (Hm h).
  destruct (m h) as [h1 evs1 [e|a]]; simpl in *; [|exact Hm].
  specialize (Hh e h1). destruct (handler e h1) as [h2 evs2 r2]; simpl in *.
  apply Forall_app; split; assumption.
Qed.

End Runs.

End JsFacts.

(** ** Discovery and supervision of the gateway process *)
Module GatewayFacts.
Import Js JsFacts Gateway.

Section Supervisor.
Variables (MoltbotEnv H : Type).
Variables (MOLTBOT_PORT STARTUP_TIMEOUT_MS : Z).
Variable buildEnvVars : MoltbotEnv -> EnvVars.
Variable sandbox : Sandbox MoltbotEnv H.

Local Abbreviation discover := (findExistingMoltbotProcess sandbox).
Local Abbreviation reuse := (reuseExisting MOLTBOT_PORT STARTUP_TIMEOUT_MS sandbox).
Local Abbreviation launch := (startGateway MOLTBOT_PORT STARTUP_TIMEOUT_MS buildEnvVars sandbox).
Local Abbreviation ensure :=
  (ensureMoltbotGateway MOLTBOT_PORT STARTUP_TIMEOUT_MS buildEnvVars sandbox).
Local Abbreviation fullTimeout := (mkWaitOptions "tcp" STARTUP_TIMEOUT_MS).
Local Abbreviation Ev := (Event MoltbotEnv).

(** *** The loop over the listed processes *)

Lemma scanProcesses_spec (processes : list Process) :
  scanProcesses processes = discoverSpec processes.
Proof.
  unfold discoverSpec.
  induction processes as [|proc rest IH]; simpl; [reflexivity|].
  unfold matchesService at 1.
  destruct (isGatewayProcess (command proc) && negb (isCliCommand (command proc)));
    simpl; [|exact IH].
  destruct (isActive (status proc)); [reflexivity | exact IH].
Qed.

Lemma isActive_iff (st : string) :
  isActive st = true <-> st = "starting" \/ st = "running".
Proof.
  unfold isActive. rewrite orb_true_iff, !String.eqb_eq. reflexivity.
Qed.

(** A process the loop returns is listed, matches, is active, and nothing
    before it in the list both matches and is active. *)
Lemma scanProcesses_first (processes : list Process) (p : Process) :
  scanProcesses processes = Some p ->
  exists before after,
    processes = before ++ p :: after /\
    matchesService p = true /\ isActive (status p) = true /\
    forall q, In q before -> matchesService q && isActive (status q) = false.
Proof.
  induction processes as [|proc rest IH]; simpl; [discriminate|].
  fold (matchesService proc).
  destruct (matchesService proc) eqn:Hmatch; simpl.
  - destruct (isActive (status proc)) eqn:Hactive.
    + intros [= <-]. exists [], rest. repeat split; auto. intros q [].
    + intros Hrest. destruct (IH Hrest) as (before & after & -> & Hm & Ha & Hnone).
      exists (proc :: before), after. repeat split; auto.
      intros q [<- | Hq]; [rewrite Hmatch, Hactive; reflexivity | auto].
  - intros Hrest. destruct (IH Hrest) as (before & after & -> & Hm & Ha & Hnone).
    exists (proc :: before), after. repeat split; auto.
    intros q [<- | Hq]; [rewrite Hmatch; reflexivity | auto].
Qed.

(** *** Runs of discovery *)

Lemma discover_listed (h : H) (processes : list Process) :
  snd (sb_listProcesses sandbox h) = inr processes ->
  discover h = mkRun (fst (sb_listProcesses sandbox h))
                     [EvListProcesses (inr processes)]
                     (inr (scanProcesses processes)).
Proof.
  intros Hlist. unfold findExistingMoltbotProcess, tryCatch, bind, listProcesses, call, ret.
  simpl. rewrite Hlist. reflexivity.
Qed.

Lemma discover_unlisted (h : H) (e : Thrown) :
  snd (sb_listProcesses sandbox h) = inl e ->
  discover h = mkRun (fst (sb_listProcesses sandbox h))
                     [EvListProcesses (inl e);
                      EvConsole LevelLog [LStr "Could not list processes:"; LVal e]]
                     (inr None).
Proof.
  intros Hlist.
  unfold findExistingMoltbotProcess, tryCatch, bind, listProcesses, call, ret, consoleLog, emit.
  simpl. rewrite Hlist. reflexivity.
Qed.

Lemma discover_never_throws (h : H) : exists found, result (discover h) = inr found.
Proof.
  destruct (snd (sb_listProcesses sandbox h)) as [e|processes] eqn:Hlist.
  - rewrite (discover_unlisted h e Hlist). eexists; reflexivity.
  - rewrite (discover_listed h processes Hlist). eexists; reflexivity.
Qed.

Lemma discover_found (h : H) (p : Process) :
  result (discover h) = inr (Some p) ->
  exists processes,
    snd (sb_listProcesses sandbox h) = inr processes /\
    scanProcesses processes = Some p /\
    discover h = mkRun (fst (sb_listProcesses sandbox h))
                       [EvListProcesses (inr processes)] (inr (Some p)).
Proof.
  destruct (snd (sb_listProcesses sandbox h)) as [e|processes] eqn:Hlist.
  - rewrite (discover_unlisted h e Hlist). discriminate.
  - rewrite (discover_listed h processes Hlist). simpl. intros [= Hscan].
    exists processes. rewrite Hscan. auto.
Qed.

(** C2. A listed process whose command contains an excluded pattern
    ([clawdbot devices] or [clawdbot --version]) is never what discovery
    returns, whatever else its command contains: the exclusion wins over
    a match of the launch signature. *)
Theorem discover_excludes_cli_commands (h : H) (p : Process) :
  includes (command p) "clawdbot devices" = true \/
  includes (command p) "clawdbot --version" = true ->
  result (discover h) <> inr (Some p).
Proof.
  intros Hexcluded Hfound.
  destruct (discover_found h p Hfound) as (processes & _ & Hscan & _).
  destruct (scanProcesses_first processes p Hscan) as (_ & _ & _ & Hmatch & _).
  unfold matchesService, isCliCommand in Hmatch.
  apply andb_true_iff in Hmatch as [_ Hcli].
  apply negb_true_iff, orb_false_iff in Hcli as [Hdev Hver].
  destruct Hexcluded; congruence.
Qed.

(** C8. When the process table can be listed, discovery returns what the
    specification describes; a returned process is listed, matches the
    signature without being excluded, has status [starting] or [running],
    and no listed process before it has all of that. *)
Theorem discover_returns_first_active_match (h : H) (processes : list Process) :
  snd (sb_listProcesses sandbox h) = inr processes ->
  result (discover h) = inr (discoverSpec processes) /\
  forall p, result (discover h) = inr (Some p) ->
    (status p = "starting" \/ status p = "running") /\
    isGatewayProcess (command p) = true /\ isCliCommand (command p) = false /\
    exists before after,
      processes = before ++ p :: after /\
      forall q, In q before ->
        ~ (matchesService q = true /\ (status q = "starting" \/ status q = "running")).
Proof.
  intros Hlist. rewrite (discover_listed h processes Hlist). simpl. split.
  - rewrite scanProcesses_spec. reflexivity.
  - intros p [= Hscan].
    destruct (scanProcesses_first processes p Hscan)
      as (before & after & Hsplit & Hmatch & Hactive & Hnone).
    unfold matchesService in Hmatch. apply andb_true_iff in Hmatch as [Hgw Hcli].
    apply negb_true_iff in Hcli. apply isActive_iff in Hactive.
    repeat split; auto.
    exists before, after. split; [exact Hsplit|].
    intros q Hq [Hm Ha]. apply isActive_iff in Ha.
    specialize (Hnone q Hq). rewrite Hm, Ha in Hnone. discriminate.
Qed.

(** *** Reading events *)

Lemma kills_app (a b : list Ev) : kills (a ++ b) = kills a ++ kills b.
Proof. induction a as [|[] a IH]; simpl; congruence. Qed.

Lemma starts_app (a b : list Ev) : starts (a ++ b) = starts a ++ starts b.
Proof. induction a as [|[] a IH]; simpl; congruence. Qed.

Lemma logReads_app (a b : list Ev) : logReads (a ++ b) = logReads a ++ logReads b.
Proof. induction a as [|[] a IH]; simpl; congruence. Qed.

Lemma waits_app (a b : list Ev) : waits (a ++ b) = waits a ++ waits b.
Proof. induction a as [|[] a IH]; simpl; congruence. Qed.

Lemma notKill_kills (evs : list Ev) : Forall notKill evs -> kills evs = [].
Proof.
  induction 1 as [|[] evs Hev _ IH]; simpl in *; auto; contradiction.
Qed.

Lemma notLaunch_In (evs : list Ev) options r :
  Forall notLaunch evs -> ~ In (EvStartProcess gatewayCommand options r) evs.
Proof.
  intros Hall Hin. rewrite Forall_forall in Hall.
  apply (Hall _ Hin). reflexivity.
Qed.

Lemma noStartNoLogs_starts (evs : list Ev) : Forall noStartNoLogs evs -> starts evs = [].
Proof.
  induction 1 as [|[] evs Hev _ IH]; simpl in *; auto; contradiction.
Qed.

Lemma noStartNoLogs_logReads (evs : list Ev) : Forall noStartNoLogs evs -> logReads evs = [].
Proof.
  induction 1 as [|[] evs Hev _ IH]; simpl in *; auto; contradiction.
Qed.

Lemma noStartNoLogs_notLaunch (evs : list Ev) : Forall noStartNoLogs evs -> Forall notLaunch evs.
Proof.
  apply Forall_impl. intros []; simpl; auto; contradiction.
Qed.

Lemma discover_events (h : H) :
  exists r, events (discover h) = EvListProcesses r :: match r with
    | inl e => [EvConsole LevelLog [LStr "Could not list processes:"; LVal e]]
    | inr _ => []
    end.
Proof.
  destruct (snd (sb_listProcesses sandbox h)) as [e|processes] eqn:Hlist.
  - rewrite (discover_unlisted h e Hlist). exists (inl e). reflexivity.
  - rewrite (discover_listed h processes Hlist). exists (inr processes). reflexivity.
Qed.

Lemma discover_quiet (h : H) :
  kills (events (discover h)) = [] /\ starts (events (discover h)) = [] /\
  waits (events (discover h)) = [] /\ logReads (events (discover h)) = [].
Proof.
  destruct (discover_events h) as [[e|processes] ->]; simpl; auto.
Qed.

(** *** Runs of the reuse phase (lines 56 to 77) *)

Lemma reuse_none (h : H) :
  result (discover h) = inr None ->
  reuse h = mkRun (final (discover h)) (events (discover h)) (inr None).
Proof.
  intros Hnone. unfold reuseExisting. rewrite (bind_ok _ _ _ _ Hnone).
  simpl. rewrite app_nil_r. reflexivity.
Qed.

Lemma reuse_ready (h : H) (p : Process) :
  result (discover h) = inr (Some p) ->
  snd (proc_waitForPort sandbox p MOLTBOT_PORT fullTimeout (final (discover h))) = inr tt ->
  reuse h =
    mkRun (fst (proc_waitForPort sandbox p MOLTBOT_PORT fullTimeout (final (discover h))))
      (events (discover h) ++
       [EvConsole LevelLog [LStr "Found existing Moltbot process:"; LStr (id p);
                            LStr "status:"; LStr (status p)];
        EvConsole LevelLog [LStr "Waiting for Moltbot gateway on port"; LNum MOLTBOT_PORT;
                            LStr "timeout:"; LNum STARTUP_TIMEOUT_MS];
        EvWaitForPort p MOLTBOT_PORT fullTimeout (inr tt);
        EvConsole LevelLog [LStr "Moltbot gateway is reachable"]])
      (inr (Some p)).
Proof.
  intros Hfound Hwait. unfold reuseExisting. rewrite (bind_ok _ _ _ _ Hfound).
  set (h1 := final (discover h)) in *.
  unfold bind, tryCatch, consoleLog, emit, waitForPort, call, ret, readinessOptions.
  simpl. rewrite Hwait. reflexivity.
Qed.

Lemma reuse_stale (h : H) (p : Process) (e : Thrown) :
  result (discover h) = inr (Some p) ->
  snd (proc_waitForPort sandbox p MOLTBOT_PORT fullTimeout (final (discover h))) = inl e ->
  let waited := fst (proc_waitForPort sandbox p MOLTBOT_PORT fullTimeout (final (discover h))) in
  reuse h =
    mkRun (fst (proc_kill sandbox p waited))
      (events (discover h) ++
       [EvConsole LevelLog [LStr "Found existing Moltbot process:"; LStr (id p);
                            LStr "status:"; LStr (status p)];
        EvConsole LevelLog [LStr "Waiting for Moltbot gateway on port"; LNum MOLTBOT_PORT;
                            LStr "timeout:"; LNum STARTUP_TIMEOUT_MS];
        EvWaitForPort p MOLTBOT_PORT fullTimeout (inl e);
        EvConsole LevelLog
          [LStr "Existing process not reachable after full timeout, killing and restarting..."];
        EvKill p (snd (proc_kill sandbox p waited))] ++
       match snd (proc_kill sandbox p waited) with
       | inl killError => [EvConsole LevelLog [LStr "Failed to kill process:"; LVal killError]]
       | inr _ => []
       end)
      (inr None).
Proof.
  intros Hfound Hwait waited. unfold reuseExisting. rewrite (bind_ok _ _ _ _ Hfound).
  subst waited. set (h1 := final (discover h)) in *.
  unfold bind, tryCatch, consoleLog, emit, waitForPort, kill, call, ret, readinessOptions.
  simpl. rewrite Hwait. simpl.
  destruct (snd (proc_kill sandbox p _)) as [killError|[]]; reflexivity.
Qed.

(** The reuse phase starts no process and reads no logs. *)
Lemma reuse_noStartNoLogs : emitsOnly noStartNoLogs reuse.
Proof.
  unfold reuseExisting, findExistingMoltbotProcess, listProcesses, waitForPort, kill,
    consoleLog.
  repeat first
    [ apply emitsOnly_bind | apply emitsOnly_tryCatch | apply emitsOnly_ret
    | apply emitsOnly_emit | apply emitsOnly_call | intros [?|] | intro | exact I ].
Qed.

Lemma reuse_never_throws (h : H) : exists reused, result (reuse h) = inr reused.
Proof.
  destruct (discover_never_throws h) as [[p|] Hfound].
  - destruct (snd (proc_waitForPort sandbox p MOLTBOT_PORT fullTimeout (final (discover h))))
      as [e|[]] eqn:Hwait.
    + rewrite (reuse_stale h p e Hfound Hwait). eexists; reflexivity.
    + rewrite (reuse_ready h p Hfound Hwait). eexists; reflexivity.
  - rewrite (reuse_none h Hfound). eexists; reflexivity.
Qed.

(** *** Runs of the launch phase (lines 79 to 131) *)

Local Abbreviation await := (awaitGateway MOLTBOT_PORT STARTUP_TIMEOUT_MS sandbox).

Local Abbreviation launchLogs := (Gateway.launchLogs buildEnvVars).

Lemma launch_refused (env : MoltbotEnv) (h : H) (startErr : Thrown) :
  snd (sb_startProcess sandbox gatewayCommand (gatewayOptions (buildEnvVars env)) h)
    = inl startErr ->
  launch env h =
    mkRun (fst (sb_startProcess sandbox gatewayCommand (gatewayOptions (buildEnvVars env)) h))
      (launchLogs env ++
       [EvStartProcess gatewayCommand (gatewayOptions (buildEnvVars env)) (inl startErr);
        EvConsole LevelError [LStr "Failed to start process:"; LVal startErr]])
      (inl startErr).
Proof.
  intros Hstart.
  unfold startGateway, bind, tryCatch, consoleLog, consoleError, emit, startProcess, call,
    throw, ret.
  simpl. rewrite Hstart. reflexivity.
Qed.

Lemma launch_started (env : MoltbotEnv) (h : H) (p : Process) :
  snd (sb_startProcess sandbox gatewayCommand (gatewayOptions (buildEnvVars env)) h)
    = inr p ->
  let started :=
    fst (sb_startProcess sandbox gatewayCommand (gatewayOptions (buildEnvVars env)) h) in
  launch env h =
    mkRun (final (await p started))
      (launchLogs env ++
       [EvStartProcess gatewayCommand (gatewayOptions (buildEnvVars env)) (inr p);
        EvConsole LevelLog [LStr "Process started with id:"; LStr (id p);
                            LStr "status:"; LStr (status p)]] ++
       events (await p started))
      (result (await p started)).
Proof.
  intros Hstart started. subst started.
  unfold startGateway, bind, tryCatch, consoleLog, emit, startProcess, call, ret.
  simpl. rewrite Hstart. simpl.
  destruct (awaitGateway _ _ _ _ _) as [hf evs res]. reflexivity.
Qed.

(** *** Runs of the fallback read of the log file (lines 111 to 125) *)

Local Abbreviation readFile := (readStartupLog sandbox).
Local Abbreviation noOptions := (mkStartOptions None).
Local Abbreviation afterFailedRead := (Gateway.afterFailedRead (MoltbotEnv:=MoltbotEnv)).

Lemma failureMessage_recognised (fullLog : string) :
  isGatewayFailure (newError (failureMessage fullLog)) = true.
Proof.
  unfold isGatewayFailure, newError, startsWith. apply prefix_iff.
  exists (" to start. Log: " +++ fullLog). reflexivity.
Qed.

Lemma append_empty (s : string) : s +++ "" = s.
Proof. induction s as [|c s IH]; simpl; congruence. Qed.

Lemma failureMessage_includes (fullLog : string) :
  includes (failureMessage fullLog) fullLog = true.
Proof.
  apply includes_iff. exists "Moltbot gateway failed to start. Log: ", "".
  rewrite append_empty. reflexivity.
Qed.

Lemma readFile_unspawned (e : Thrown) (h : H) (logErr : Thrown) :
  snd (sb_startProcess sandbox readLogCommand noOptions h) = inl logErr ->
  readFile e h =
    mkRun (fst (sb_startProcess sandbox readLogCommand noOptions h))
      (EvStartProcess readLogCommand noOptions (inl logErr) :: fst (afterFailedRead e logErr))
      (inl (snd (afterFailedRead e logErr))).
Proof.
  intros Hspawn.
  unfold readStartupLog, tryCatch, bind, startProcess, call, afterFailedRead.
  simpl. rewrite Hspawn. simpl.
  destruct (isGatewayFailure logErr); reflexivity.
Qed.

Lemma readFile_unread (e : Thrown) (h : H) (readLog : Process) (logErr : Thrown) :
  snd (sb_startProcess sandbox readLogCommand noOptions h) = inr readLog ->
  let spawned := fst (sb_startProcess sandbox readLogCommand noOptions h) in
  snd (proc_getLogs sandbox readLog spawned) = inl logErr ->
  readFile e h =
    mkRun (fst (proc_getLogs sandbox readLog spawned))
      ([EvStartProcess readLogCommand noOptions (inr readLog);
        EvSetTimeout 3000;
        EvGetLogs readLog (inl logErr)] ++ fst (afterFailedRead e logErr))
      (inl (snd (afterFailedRead e logErr))).
Proof.
  intros Hspawn spawned Hlogs. subst spawned.
  unfold readStartupLog, tryCatch, bind, startProcess, getLogs, sleep, emit, call,
    afterFailedRead.
  simpl. rewrite Hspawn. simpl. rewrite Hlogs. simpl.
  destruct (isGatewayFailure logErr); reflexivity.
Qed.

Lemma readFile_read (e : Thrown) (h : H) (readLog : Process) (logContent : Logs) :
  snd (sb_startProcess sandbox readLogCommand noOptions h) = inr readLog ->
  let spawned := fst (sb_startProcess sandbox readLogCommand noOptions h) in
  snd (proc_getLogs sandbox readLog spawned) = inr logContent ->
  readFile e h =
    mkRun (fst (proc_getLogs sandbox readLog spawned))
      [EvStartProcess readLogCommand noOptions (inr readLog);
       EvSetTimeout 3000;
       EvGetLogs readLog (inr logContent);
       EvConsole LevelError [LStr "[Gateway] startup log from file:";
                             LStr (fullLogOf logContent)]]
      (inl (newError (failureMessage (fullLogOf logContent)))).
Proof.
  intros Hspawn spawned Hlogs. subst spawned.
  unfold readStartupLog, tryCatch, bind, startProcess, getLogs, sleep, emit, call,
    consoleError, throw.
  simpl. rewrite Hspawn. simpl. rewrite Hlogs. simpl.
  try rewrite failureMessage_recognised. reflexivity.
Qed.

(** The fallback always ends in a [throw], and the first thing it does is
    to spawn the command that reads the log file. *)
Lemma readFile_shape (e : Thrown) (h : H) :
  exists thrown rest,
    result (readFile e h) = inl thrown /\
    events (readFile e h) =
      EvStartProcess readLogCommand noOptions
        (snd (sb_startProcess sandbox readLogCommand noOptions h)) :: rest.
Proof.
  destruct (snd (sb_startProcess sandbox readLogCommand noOptions h))
    as [logErr|readLog] eqn:Hspawn.
  - rewrite (readFile_unspawned e h logErr Hspawn). simpl. eauto.
  - destruct (snd (proc_getLogs sandbox readLog
                     (fst (sb_startProcess sandbox readLogCommand noOptions h))))
      as [logErr|logContent] eqn:Hlogs.
    + rewrite (readFile_unread e h readLog logErr Hspawn Hlogs). simpl. eauto.
    + rewrite (readFile_read e h readLog logContent Hspawn Hlogs). simpl. eauto.
Qed.

(** *** Runs of the wait on the fresh process (lines 99 to 131) *)

Lemma await_unready (p : Process) (h : H) (e : Thrown) :
  snd (proc_waitForPort sandbox p MOLTBOT_PORT fullTimeout h) = inl e ->
  let waited := fst (proc_waitForPort sandbox p MOLTBOT_PORT fullTimeout h) in
  await p h =
    mkRun (final (readFile e waited))
      ([EvConsole LevelLog
          [LStr "[Gateway] Waiting for Moltbot gateway to be ready on port";
           LNum MOLTBOT_PORT];
        EvWaitForPort p MOLTBOT_PORT fullTimeout (inl e);
        EvConsole LevelError [LStr "[Gateway] waitForPort failed:"; LVal e]] ++
       events (readFile e waited))
      (result (readFile e waited)).
Proof.
  intros Hwait waited. subst waited.
  destruct (readFile_shape e (fst (proc_waitForPort sandbox p MOLTBOT_PORT fullTimeout h)))
    as (thrown & rest & Hthrown & _).
  unfold awaitGateway, bind, tryCatch, consoleLog, consoleError, emit, waitForPort, call,
    readinessOptions.
  simpl. rewrite Hwait. simpl.
  destruct (readStartupLog sandbox e _) as [hf evs res]. simpl in *. subst res.
  reflexivity.
Qed.

(** *** What the phases never do *)

Lemma readLogCommand_not_gatewayCommand : readLogCommand <> gatewayCommand.
Proof. intros Heq. vm_compute in Heq. discriminate Heq. Qed.

Ltac emitsOnly_steps :=
  repeat first
    [ apply emitsOnly_bind | apply emitsOnly_tryCatch | apply emitsOnly_ret
    | apply emitsOnly_throw | apply emitsOnly_emit | apply emitsOnly_call
    | exact I | exact readLogCommand_not_gatewayCommand
    | match goal with
      | |- emitsOnly _ (if ?c then _ else _) => destruct c
      | |- emitsOnly _ (match ?x with Some _ => _ | None => _ end) => destruct x
      end
    | intro ].

Lemma readFile_notKill (e : Thrown) : emitsOnly notKill (readFile e).
Proof.
  unfold readStartupLog, startProcess, getLogs, sleep, consoleError. emitsOnly_steps.
Qed.

Lemma readFile_notLaunch (e : Thrown) : emitsOnly notLaunch (readFile e).
Proof.
  unfold readStartupLog, startProcess, getLogs, sleep, consoleError. emitsOnly_steps.
Qed.

Lemma await_notKill (p : Process) : emitsOnly notKill (await p).
Proof.
  unfold awaitGateway, waitForPort, getLogs, consoleLog, consoleError.
  repeat first
    [ apply readFile_notKill | apply emitsOnly_bind | apply emitsOnly_tryCatch
    | apply emitsOnly_ret | apply emitsOnly_emit | apply emitsOnly_call | exact I
    | match goal with |- emitsOnly _ (if ?c then _ else _) => destruct c end
    | intro ].
Qed.

Lemma await_notLaunch (p : Process) : emitsOnly notLaunch (await p).
Proof.
  unfold awaitGateway, waitForPort, getLogs, consoleLog, consoleError.
  repeat first
    [ apply readFile_notLaunch | apply emitsOnly_bind | apply emitsOnly_tryCatch
    | apply emitsOnly_ret | apply emitsOnly_emit | apply emitsOnly_call | exact I
    | match goal with |- emitsOnly _ (if ?c then _ else _) => destruct c end
    | intro ].
Qed.

Lemma launch_notKill (env : MoltbotEnv) : emitsOnly notKill (launch env).
Proof.
  unfold startGateway, startProcess, consoleLog, consoleError.
  repeat first
    [ apply await_notKill | apply emitsOnly_bind | apply emitsOnly_tryCatch
    | apply emitsOnly_ret | apply emitsOnly_throw | apply emitsOnly_emit
    | apply emitsOnly_call | exact I | intro ].
Qed.

(** The launch phase begins with its console output and the start of the
    gateway's command, whatever the outcome. *)
Lemma launch_shape (env : MoltbotEnv) (h : H) :
  exists rest,
    events (launch env h) =
      launchLogs env ++
      EvStartProcess gatewayCommand (gatewayOptions (buildEnvVars env))
        (snd (sb_startProcess sandbox gatewayCommand (gatewayOptions (buildEnvVars env)) h))
      :: rest.
Proof.
  destruct (snd (sb_startProcess sandbox gatewayCommand (gatewayOptions (buildEnvVars env)) h))
    as [startErr|p] eqn:Hstart.
  - rewrite (launch_refused env h startErr Hstart). simpl. eauto.
  - rewrite (launch_started env h p Hstart). simpl. eauto.
Qed.

(** *** Runs of [ensureMoltbotGateway] *)

Local Abbreviation mount := (mountR2Storage sandbox).

Lemma ensure_unmounted (env : MoltbotEnv) (h : H) (e : Thrown) :
  result (mount env h) = inl e ->
  ensure env h = mkRun (final (mount env h)) (events (mount env h)) (inl e).
Proof.
  intros Hmount. unfold ensureMoltbotGateway. rewrite (bind_thrown _ _ _ _ Hmount).
  reflexivity.
Qed.

Lemma ensure_reused (env : MoltbotEnv) (h : H) (p : Process) :
  result (mount env h) = inr tt ->
  result (reuse (final (mount env h))) = inr (Some p) ->
  ensure env h =
    mkRun (final (reuse (final (mount env h))))
      (events (mount env h) ++ events (reuse (final (mount env h))))
      (inr p).
Proof.
  intros Hmount Hreuse. unfold ensureMoltbotGateway.
  rewrite (bind_ok _ _ _ _ Hmount), (bind_ok _ _ _ _ Hreuse).
  simpl. rewrite app_nil_r. reflexivity.
Qed.

Lemma ensure_launched (env : MoltbotEnv) (h : H) :
  result (mount env h) = inr tt ->
  result (reuse (final (mount env h))) = inr None ->
  let reached := final (reuse (final (mount env h))) in
  ensure env h =
    mkRun (final (launch env reached))
      (events (mount env h) ++ events (reuse (final (mount env h))) ++
       events (launch env reached))
      (result (launch env reached)).
Proof.
  intros Hmount Hreuse reached. unfold ensureMoltbotGateway.
  rewrite (bind_ok _ _ _ _ Hmount), (bind_ok _ _ _ _ Hreuse).
  reflexivity.
Qed.

Lemma mount_events (env : MoltbotEnv) (h : H) :
  events (mount env h) = [EvMountR2Storage env (snd (sb_mountR2Storage sandbox env h))].
Proof. reflexivity. Qed.

(** C1. When the mount went through, discovery finds a process and that
    process becomes reachable, [ensureMoltbotGateway] returns that very
    process; its only readiness wait is the one on that process, on
    [MOLTBOT_PORT] in TCP mode with the whole [STARTUP_TIMEOUT_MS]; it
    kills nothing and starts nothing. *)
Theorem ensure_reuses_ready_process (env : MoltbotEnv) (h : H) (p : Process) :
  result (mount env h) = inr tt ->
  let mounted := final (mount env h) in
  result (discover mounted) = inr (Some p) ->
  snd (proc_waitForPort sandbox p MOLTBOT_PORT (mkWaitOptions "tcp" STARTUP_TIMEOUT_MS)
         (final (discover mounted))) = inr tt ->
  let run := ensure env h in
  result run = inr p /\
  waits (events run) = [(p, MOLTBOT_PORT, mkWaitOptions "tcp" STARTUP_TIMEOUT_MS)] /\
  kills (events run) = [] /\
  starts (events run) = [].
Proof.
  intros Hmount mounted Hfound Hwait run.
  pose proof (reuse_ready mounted p Hfound Hwait) as Hreuse.
  assert (Hres : result (reuse mounted) = inr (Some p)) by (rewrite Hreuse; reflexivity).
  subst run. rewrite (ensure_reused env h p Hmount Hres).
  fold mounted. rewrite Hreuse. cbn [result events].
  destruct (discover_quiet mounted) as (Hk & Hs & Hw & _).
  rewrite mount_events.
  repeat split.
  - rewrite waits_app, waits_app, Hw. reflexivity.
  - rewrite kills_app, kills_app, Hk. reflexivity.
  - rewrite starts_app, starts_app, Hs. reflexivity.
Qed.

(** C3. When the mount went through, discovery finds a process and the
    readiness wait on it fails, [kill()] is called on that process once
    and on nothing else, before any process is started; whatever the
    outcome of the kill (a failure is written to the console), the gateway
    is then started, and the run ends as the launch phase ends. *)
Theorem ensure_kills_stale_once_then_starts
    (env : MoltbotEnv) (h : H) (p : Process) (e : Thrown) :
  result (mount env h) = inr tt ->
  let mounted := final (mount env h) in
  result (discover mounted) = inr (Some p) ->
  snd (proc_waitForPort sandbox p MOLTBOT_PORT (mkWaitOptions "tcp" STARTUP_TIMEOUT_MS)
         (final (discover mounted))) = inl e ->
  let waited := fst (proc_waitForPort sandbox p MOLTBOT_PORT
                       (mkWaitOptions "tcp" STARTUP_TIMEOUT_MS) (final (discover mounted))) in
  let killed := proc_kill sandbox p waited in
  let run := ensure env h in
  kills (events run) = [p] /\
  (exists before between after outcome,
     events run =
       before ++ EvKill p (snd killed) :: between ++
       EvStartProcess gatewayCommand (gatewayOptions (buildEnvVars env)) outcome :: after /\
     starts before = [] /\ starts between = [] /\
     forall killError, snd killed = inl killError ->
       In (EvConsole LevelLog [LStr "Failed to kill process:"; LVal killError]) between) /\
  result run = result (launch env (fst killed)).
Proof.
  intros Hmount mounted Hfound Hwait waited killed run.
  pose proof (reuse_stale mounted p e Hfound Hwait) as Hreuse. cbv zeta in Hreuse.
  fold waited in Hreuse. fold killed in Hreuse.
  assert (Hres : result (reuse mounted) = inr None) by (rewrite Hreuse; reflexivity).
  subst run. rewrite (ensure_launched env h Hmount Hres).
  fold mounted. rewrite Hreuse. cbn [result events final].
  destruct (discover_quiet mounted) as (Hk & Hs & _ & _).
  destruct (launch_shape env (fst killed)) as [rest Hshape].
  pose proof (notKill_kills _ (launch_notKill env (fst killed))) as Hquiet.
  rewrite mount_events. repeat split.
  - rewrite !kills_app, Hk, Hquiet. simpl. destruct (snd killed) as [killError|[]]; reflexivity.
  - exists ([EvMountR2Storage env (snd (sb_mountR2Storage sandbox env h))] ++
            events (discover mounted) ++
            [EvConsole LevelLog [LStr "Found existing Moltbot process:"; LStr (id p);
                                 LStr "status:"; LStr (status p)];
             EvConsole LevelLog [LStr "Waiting for Moltbot gateway on port";
                                 LNum MOLTBOT_PORT; LStr "timeout:"; LNum STARTUP_TIMEOUT_MS];
             EvWaitForPort p MOLTBOT_PORT fullTimeout (inl e);
             EvConsole LevelLog
               [LStr "Existing process not reachable after full timeout, killing and restarting..."]]),
           (match snd killed with
            | inl killError =>
                [EvConsole LevelLog [LStr "Failed to kill process:"; LVal killError]]
            | inr _ => []
            end ++ launchLogs env),
           rest,
           (snd (sb_startProcess sandbox gatewayCommand (gatewayOptions (buildEnvVars env))
                   (fst killed))).
    rewrite Hshape. repeat split.
    + simpl. rewrite <- !app_assoc. simpl. reflexivity.
    + rewrite !starts_app, Hs. reflexivity.
    + rewrite starts_app. destruct (snd killed) as [killError|[]]; reflexivity.
    + intros killError ->. left. reflexivity.
Qed.

(** C4. In every run of [ensureMoltbotGateway] in which the start of the
    gateway's command fails, the run throws the very value that
    [startProcess] threw, no [getLogs()] is called, and nothing else is
    started: the log file is not read. *)
Theorem ensure_propagates_start_failure
    (env : MoltbotEnv) (h : H) (options : StartOptions) (startErr : Thrown) :
  In (EvStartProcess gatewayCommand options (inl startErr)) (events (ensure env h)) ->
  result (ensure env h) = inl startErr /\
  logReads (events (ensure env h)) = [] /\
  starts (events (ensure env h)) = [gatewayCommand].
Proof.
  destruct (result (mount env h)) as [e|[]] eqn:Hmount.
  { rewrite (ensure_unmounted env h e Hmount), mount_events. simpl.
    intros [Habs|[]]. discriminate Habs. }
  pose proof (reuse_noStartNoLogs (final (mount env h))) as Hprefix.
  destruct (reuse_never_throws (final (mount env h))) as [[p|] Hreuse].
  { rewrite (ensure_reused env h p Hmount Hreuse), mount_events. simpl.
    intros [Habs|Hin]; [discriminate Habs|].
    exfalso. exact (notLaunch_In _ _ _ (noStartNoLogs_notLaunch _ Hprefix) Hin). }
  rewrite (ensure_launched env h Hmount Hreuse), mount_events. cbn [result events].
  set (mounted := final (mount env h)) in *.
  set (reached := final (reuse mounted)).
  intros Hin. simpl in Hin. destruct Hin as [Habs|Hin]; [discriminate Habs|].
  apply in_app_or in Hin as [Hin|Hin].
  { exfalso. exact (notLaunch_In _ _ _ (noStartNoLogs_notLaunch _ Hprefix) Hin). }
  destruct (snd (sb_startProcess sandbox gatewayCommand (gatewayOptions (buildEnvVars env))
                   reached)) as [thrown|p] eqn:Hstart.
  - rewrite (launch_refused env reached thrown Hstart) in *. cbn [result events] in *.
    simpl in Hin.
    destruct Hin as [Habs|[Habs|[Habs|[Heq|[Habs|[]]]]]]; try discriminate Habs.
    injection Heq as _ ->. repeat split.
    + simpl. rewrite logReads_app, (noStartNoLogs_logReads _ Hprefix). reflexivity.
    + simpl. rewrite starts_app, (noStartNoLogs_starts _ Hprefix). reflexivity.
  - exfalso. rewrite (launch_started env reached p Hstart) in Hin. cbn [events] in Hin.
    simpl in Hin.
    destruct Hin as [Habs|[Habs|[Habs|[Habs|[Habs|Hin]]]]]; try discriminate Habs.
    exact (notLaunch_In _ _ _ (await_notLaunch p _) Hin).
Qed.

(** C7. When listing the processes throws, discovery writes the thrown
    value to the console and returns [null]; discovery never throws; and
    [ensureMoltbotGateway] goes on to the launch phase and ends as that
    phase ends, exactly as when nothing is listed. *)
Theorem discover_fails_soft (env : MoltbotEnv) (h : H) (e : Thrown) :
  result (mount env h) = inr tt ->
  let mounted := final (mount env h) in
  snd (sb_listProcesses sandbox mounted) = inl e ->
  let listed := fst (sb_listProcesses sandbox mounted) in
  discover mounted =
    mkRun listed
      [EvListProcesses (inl e);
       EvConsole LevelLog [LStr "Could not list processes:"; LVal e]]
      (inr None) /\
  (forall h' thrown, result (discover h') <> inl thrown) /\
  ensure env h =
    mkRun (final (launch env listed))
      (events (mount env h) ++
       [EvListProcesses (inl e);
        EvConsole LevelLog [LStr "Could not list processes:"; LVal e]] ++
       events (launch env listed))
      (result (launch env listed)).
Proof.
  intros Hmount mounted Hlist listed.
  pose proof (discover_unlisted mounted e Hlist) as Hdiscover. fold listed in Hdiscover.
  split; [exact Hdiscover|]. split.
  - intros h' thrown Habs. destruct (discover_never_throws h') as [found Hfound].
    congruence.
  - assert (Hnone : result (discover mounted) = inr None) by (rewrite Hdiscover; reflexivity).
    pose proof (reuse_none mounted Hnone) as Hreuse. rewrite Hdiscover in Hreuse.
    cbn [final events] in Hreuse.
    assert (Hres : result (reuse mounted) = inr None) by (rewrite Hreuse; reflexivity).
    rewrite (ensure_launched env h Hmount Hres). fold mounted. rewrite Hreuse.
    reflexivity.
Qed.

(** The run in which nothing is reused, the gateway is started, and the
    wait on it fails: what is left is the fallback read of the log file. *)
Lemma ensure_unready (env : MoltbotEnv) (h : H) (p : Process) (e : Thrown) :
  result (mount env h) = inr tt ->
  let mounted := final (mount env h) in
  result (reuse mounted) = inr None ->
  let reached := final (reuse mounted) in
  snd (sb_startProcess sandbox gatewayCommand (gatewayOptions (buildEnvVars env)) reached)
    = inr p ->
  let started :=
    fst (sb_startProcess sandbox gatewayCommand (gatewayOptions (buildEnvVars env)) reached) in
  snd (proc_waitForPort sandbox p MOLTBOT_PORT fullTimeout started) = inl e ->
  let waited := fst (proc_waitForPort sandbox p MOLTBOT_PORT fullTimeout started) in
  ensure env h =
    mkRun (final (readFile e waited))
      ((events (mount env h) ++ events (reuse mounted) ++ launchLogs env ++
        [EvStartProcess gatewayCommand (gatewayOptions (buildEnvVars env)) (inr p);
         EvConsole LevelLog [LStr "Process started with id:"; LStr (id p);
                             LStr "status:"; LStr (status p)];
         EvConsole LevelLog
           [LStr "[Gateway] Waiting for Moltbot gateway to be ready on port";
            LNum MOLTBOT_PORT]]) ++
       [EvWaitForPort p MOLTBOT_PORT fullTimeout (inl e);
        EvConsole LevelError [LStr "[Gateway] waitForPort failed:"; LVal e]] ++
       events (readFile e waited))
      (result (readFile e waited)).
Proof.
  intros Hmount mounted Hreuse reached Hstart started Hwait waited.
  rewrite (ensure_launched env h Hmount Hreuse). fold mounted. fold reached.
  rewrite (launch_started env reached p Hstart). fold started.
  rewrite (await_unready p started e Hwait). fold waited.
  cbn [final events result]. f_equal.
  rewrite <- !app_assoc. simpl. reflexivity.
Qed.

(** C5, as the code has it.  When nothing is reused, the gateway is
    started and the readiness wait on it fails, no [getLogs()] has been
    called by then and none is called on the way to the fallback: the
    failed wait is followed by its console line and then directly by the
    spawn of [cat /tmp/moltbot-startup.log]; when that spawn succeeds, the
    run waits 3000 ms and then calls [getLogs()] on the spawned process,
    which is the only [getLogs()] of the run. *)
Theorem readiness_failure_dumps_log_file
    (env : MoltbotEnv) (h : H) (p : Process) (e : Thrown) :
  result (mount env h) = inr tt ->
  let mounted := final (mount env h) in
  result (reuse mounted) = inr None ->
  let reached := final (reuse mounted) in
  snd (sb_startProcess sandbox gatewayCommand (gatewayOptions (buildEnvVars env)) reached)
    = inr p ->
  let started :=
    fst (sb_startProcess sandbox gatewayCommand (gatewayOptions (buildEnvVars env)) reached) in
  snd (proc_waitForPort sandbox p MOLTBOT_PORT (mkWaitOptions "tcp" STARTUP_TIMEOUT_MS) started)
    = inl e ->
  let waited := fst (proc_waitForPort sandbox p MOLTBOT_PORT
                       (mkWaitOptions "tcp" STARTUP_TIMEOUT_MS) started) in
  let spawn := sb_startProcess sandbox readLogCommand (mkStartOptions None) waited in
  exists before after,
    events (ensure env h) =
      before ++
      [EvWaitForPort p MOLTBOT_PORT (mkWaitOptions "tcp" STARTUP_TIMEOUT_MS) (inl e);
       EvConsole LevelError [LStr "[Gateway] waitForPort failed:"; LVal e];
       EvStartProcess readLogCommand (mkStartOptions None) (snd spawn)] ++ after /\
    logReads before = [] /\
    (forall logErr, snd spawn = inl logErr -> logReads after = []) /\
    (forall readLog, snd spawn = inr readLog ->
       exists rest,
         after = EvSetTimeout 3000 ::
                 EvGetLogs readLog (snd (proc_getLogs sandbox readLog (fst spawn))) :: rest /\
         logReads rest = []).
Proof.
  intros Hmount mounted Hreuse reached Hstart started Hwait waited spawn.
  rewrite (ensure_unready env h p e Hmount Hreuse Hstart Hwait).
  fold mounted. fold reached. fold started. fold waited. cbn [events].
  pose proof (noStartNoLogs_logReads _ (reuse_noStartNoLogs mounted)) as Hquiet.
  eexists. 
  destruct (snd spawn) as [logErr|readLog] eqn:Hspawn.
  - rewrite (readFile_unspawned e waited logErr Hspawn). cbn [events].
    exists (fst (afterFailedRead e logErr)). repeat split.
    + rewrite mount_events. simpl. rewrite !logReads_app, Hquiet. reflexivity.
    + intros _ _. unfold afterFailedRead. destruct (isGatewayFailure logErr); reflexivity.
    + intros readLog Habs. discriminate Habs.
  - destruct (snd (proc_getLogs sandbox readLog (fst spawn))) as [logErr|logContent] eqn:Hlogs.
    + rewrite (readFile_unread e waited readLog logErr Hspawn Hlogs). cbn [events].
      exists ([EvSetTimeout 3000; EvGetLogs readLog (inl logErr)] ++
              fst (afterFailedRead e logErr)).
      repeat split.
      * rewrite mount_events. simpl. rewrite !logReads_app, Hquiet. reflexivity.
      * intros logErr' Habs. discriminate Habs.
      * intros readLog' [= <-]. exists (fst (afterFailedRead e logErr)).
        rewrite Hlogs. split; [reflexivity|].
        unfold afterFailedRead. destruct (isGatewayFailure logErr); reflexivity.
    + rewrite (readFile_read e waited readLog logContent Hspawn Hlogs). cbn [events].
      exists [EvSetTimeout 3000; EvGetLogs readLog (inr logContent);
              EvConsole LevelError [LStr "[Gateway] startup log from file:";
                                    LStr (fullLogOf logContent)]].
      repeat split.
      * rewrite mount_events. simpl. rewrite !logReads_app, Hquiet. reflexivity.
      * intros logErr' Habs. discriminate Habs.
      * intros readLog' [= <-]. eexists. rewrite Hlogs. split; reflexivity.
Qed.

(** C6, as the code has it.  When nothing is reused, the gateway is
    started and the readiness wait on it fails with [e]: if the log file
    is read, the run throws one [Error] whose message is
    [Moltbot gateway failed to start. Log: ] followed by the text that was
    read (the standard output, else the standard error, else
    [(no log output)]); if spawning the reader or reading its logs throws
    a value that is not an [Error] whose message starts with
    [Moltbot gateway failed], the run throws [e]. *)
Theorem readiness_failure_surfaces_diagnostics
    (env : MoltbotEnv) (h : H) (p : Process) (e : Thrown) :
  result (mount env h) = inr tt ->
  let mounted := final (mount env h) in
  result (reuse mounted) = inr None ->
  let reached := final (reuse mounted) in
  snd (sb_startProcess sandbox gatewayCommand (gatewayOptions (buildEnvVars env)) reached)
    = inr p ->
  let started :=
    fst (sb_startProcess sandbox gatewayCommand (gatewayOptions (buildEnvVars env)) reached) in
  snd (proc_waitForPort sandbox p MOLTBOT_PORT (mkWaitOptions "tcp" STARTUP_TIMEOUT_MS) started)
    = inl e ->
  let waited := fst (proc_waitForPort sandbox p MOLTBOT_PORT
                       (mkWaitOptions "tcp" STARTUP_TIMEOUT_MS) started) in
  let spawn := sb_startProcess sandbox readLogCommand (mkStartOptions None) waited in
  (forall readLog logContent,
     snd spawn = inr readLog ->
     snd (proc_getLogs sandbox readLog (fst spawn)) = inr logContent ->
     let recovered :=
       orElse (stdout logContent) (orElse (stderr logContent) "(no log output)") in
     result (ensure env h) =
       inl (ErrorObj "Error" ("Moltbot gateway failed to start. Log: " +++ recovered)) /\
     includes ("Moltbot gateway failed to start. Log: " +++ recovered) recovered = true) /\
  (forall logErr,
     snd spawn = inl logErr \/
     (exists readLog, snd spawn = inr readLog /\
                      snd (proc_getLogs sandbox readLog (fst spawn)) = inl logErr) ->
     isGatewayFailure logErr = false ->
     result (ensure env h) = inl e).
Proof.
  intros Hmount mounted Hreuse reached Hstart started Hwait waited spawn.
  rewrite (ensure_unready env h p e Hmount Hreuse Hstart Hwait).
  fold mounted. fold reached. fold started. fold waited. cbn [result]. split.
  - intros readLog logContent Hspawn Hlogs.
    rewrite (readFile_read e waited readLog logContent Hspawn Hlogs). cbn [result].
    split; [reflexivity|]. exact (failureMessage_includes (fullLogOf logContent)).
  - intros logErr [Hspawn | (readLog & Hspawn & Hlogs)] Hforeign.
    + rewrite (readFile_unspawned e waited logErr Hspawn). cbn [result].
      unfold afterFailedRead. rewrite Hforeign. reflexivity.
    + rewrite (readFile_unread e waited readLog logErr Hspawn Hlogs). cbn [result].
      unfold afterFailedRead. rewrite Hforeign. reflexivity.
Qed.

(** *** Further runs of the wait on the fresh process *)

(** The console lines of lines 106 and 107. *)
Local Abbreviation streamLogs logs :=
  ((if truthy (stdout logs)
    then [EvConsole LevelLog [LStr "[Gateway] stdout:"; LStr (stdout logs)]] else []) ++
   (if truthy (stderr logs)
    then [EvConsole LevelLog [LStr "[Gateway] stderr:"; LStr (stderr logs)]] else [])).

Lemma await_ready (p : Process) (h : H) (logs : Logs) :
  snd (proc_waitForPort sandbox p MOLTBOT_PORT fullTimeout h) = inr tt ->
  let waited := fst (proc_waitForPort sandbox p MOLTBOT_PORT fullTimeout h) in
  snd (proc_getLogs sandbox p waited) = inr logs ->
  await p h =
    mkRun (fst (proc_getLogs sandbox p waited))
      ([EvConsole LevelLog
          [LStr "[Gateway] Waiting for Moltbot gateway to be ready on port";
           LNum MOLTBOT_PORT];
        EvWaitForPort p MOLTBOT_PORT fullTimeout (inr tt);
        EvConsole LevelLog [LStr "[Gateway] Moltbot gateway is ready!"];
        EvGetLogs p (inr logs)] ++ streamLogs logs ++
       [EvConsole LevelLog [LStr "[Gateway] Verifying gateway health..."]])
      (inr p).
Proof.
  intros Hwait waited Hlogs. subst waited.
  unfold awaitGateway, bind, tryCatch, consoleLog, consoleError, emit, waitForPort, getLogs,
    call, readinessOptions, ret.
  simpl. rewrite Hwait. simpl. rewrite Hlogs. simpl.
  destruct (truthy (stdout logs)), (truthy (stderr logs)); reflexivity.
Qed.

Lemma await_unlogged (p : Process) (h : H) (e : Thrown) :
  snd (proc_waitForPort sandbox p MOLTBOT_PORT fullTimeout h) = inr tt ->
  let waited := fst (proc_waitForPort sandbox p MOLTBOT_PORT fullTimeout h) in
  snd (proc_getLogs sandbox p waited) = inl e ->
  let logged := fst (proc_getLogs sandbox p waited) in
  await p h =
    mkRun (final (readFile e logged))
      ([EvConsole LevelLog
          [LStr "[Gateway] Waiting for Moltbot gateway to be ready on port";
           LNum MOLTBOT_PORT];
        EvWaitForPort p MOLTBOT_PORT fullTimeout (inr tt);
        EvConsole LevelLog [LStr "[Gateway] Moltbot gateway is ready!"];
        EvGetLogs p (inl e);
        EvConsole LevelError [LStr "[Gateway] waitForPort failed:"; LVal e]] ++
       events (readFile e logged))
      (result (readFile e logged)).
Proof.
  intros Hwait waited Hlogs logged. subst logged waited.
  destruct (readFile_shape e
              (fst (proc_getLogs sandbox p
                      (fst (proc_waitForPort sandbox p MOLTBOT_PORT fullTimeout h)))))
    as (thrown & rest & Hthrown & _).
  unfold awaitGateway, bind, tryCatch, consoleLog, consoleError, emit, waitForPort, getLogs,
    call, readinessOptions.
  simpl. rewrite Hwait. simpl. rewrite Hlogs. simpl.
  destruct (readStartupLog sandbox e _) as [hf evs res]. simpl in *. subst res.
  reflexivity.
Qed.

(** The fallback spawns the reader and nothing else. *)
Lemma readFile_starts (e : Thrown) (h : H) :
  starts (events (readFile e h)) = [readLogCommand].
Proof.
  destruct (snd (sb_startProcess sandbox readLogCommand noOptions h))
    as [logErr|readLog] eqn:Hspawn.
  - rewrite (readFile_unspawned e h logErr Hspawn). cbn [events].
    unfold Gateway.afterFailedRead. destruct (isGatewayFailure logErr); reflexivity.
  - destruct (snd (proc_getLogs sandbox readLog
                     (fst (sb_startProcess sandbox readLogCommand noOptions h))))
      as [logErr|logContent] eqn:Hlogs.
    + rewrite (readFile_unread e h readLog logErr Hspawn Hlogs). cbn [events].
      unfold Gateway.afterFailedRead. destruct (isGatewayFailure logErr); reflexivity.
    + rewrite (readFile_read e h readLog logContent Hspawn Hlogs). reflexivity.
Qed.

Lemma readFile_throws (e : Thrown) (h : H) (p : Process) : result (readFile e h) <> inr p.
Proof.
  destruct (readFile_shape e h) as (thrown & rest & Hthrown & _). congruence.
Qed.

(** The three ways the wait on the fresh process can go. *)
Lemma await_cases (p : Process) (h : H) :
  (exists logs,
     snd (proc_waitForPort sandbox p MOLTBOT_PORT fullTimeout h) = inr tt /\
     snd (proc_getLogs sandbox p
            (fst (proc_waitForPort sandbox p MOLTBOT_PORT fullTimeout h))) = inr logs /\
     result (await p h) = inr p /\ starts (events (await p h)) = [] /\
     logReads (events (await p h)) = [p] /\
     In (EvWaitForPort p MOLTBOT_PORT fullTimeout (inr tt)) (events (await p h))) \/
  (exists thrown e,
     result (await p h) = inl thrown /\ starts (events (await p h)) = [readLogCommand] /\
     In (EvConsole LevelError [LStr "[Gateway] waitForPort failed:"; LVal e])
        (events (await p h))).
Proof.
  destruct (snd (proc_waitForPort sandbox p MOLTBOT_PORT fullTimeout h)) as [e|[]] eqn:Hwait.
  - right. rewrite (await_unready p h e Hwait). cbn [result events].
    destruct (readFile_shape e (fst (proc_waitForPort sandbox p MOLTBOT_PORT fullTimeout h)))
      as (thrown & rest & Hthrown & _).
    exists thrown, e. rewrite Hthrown, starts_app, readFile_starts.
    repeat split; simpl; auto.
  - destruct (snd (proc_getLogs sandbox p
                     (fst (proc_waitForPort sandbox p MOLTBOT_PORT fullTimeout h))))
      as [e|logs] eqn:Hlogs.
    + right. rewrite (await_unlogged p h e Hwait Hlogs). cbn [result events].
      destruct (readFile_shape e
                  (fst (proc_getLogs sandbox p
                          (fst (proc_waitForPort sandbox p MOLTBOT_PORT fullTimeout h)))))
        as (thrown & rest & Hthrown & _).
      exists thrown, e. rewrite Hthrown, starts_app, readFile_starts.
      repeat split; simpl; auto 10.
    + left. exists logs. rewrite (await_ready p h logs Hwait Hlogs). cbn [result events].
      repeat split; simpl; auto;
        destruct (truthy (stdout logs)), (truthy (stderr logs)); reflexivity.
Qed.

Ltac pick_disjunct :=
  match goal with
  | |- _ \/ _ => (left; pick_disjunct) || (right; pick_disjunct)
  | |- _ = _ => reflexivity
  end.

Ltac find_event := rewrite ?in_app_iff; simpl; pick_disjunct.

Lemma launch_cases (env : MoltbotEnv) (h : H) :
  (exists p,
     result (launch env h) = inr p /\ starts (events (launch env h)) = [gatewayCommand] /\
     In (EvWaitForPort p MOLTBOT_PORT fullTimeout (inr tt)) (events (launch env h))) \/
  (exists thrown,
     result (launch env h) = inl thrown /\
     (starts (events (launch env h)) = [gatewayCommand] \/
      starts (events (launch env h)) = [gatewayCommand; readLogCommand])).
Proof.
  destruct (snd (sb_startProcess sandbox gatewayCommand (gatewayOptions (buildEnvVars env)) h))
    as [startErr|p] eqn:Hstart.
  - right. exists startErr. rewrite (launch_refused env h startErr Hstart). auto.
  - rewrite (launch_started env h p Hstart). cbn [result events].
    set (started := fst (sb_startProcess sandbox gatewayCommand _ h)).
    destruct (await_cases p started)
      as [(logs & _ & _ & Hres & Hstarts & _ & Hin) | (thrown & e & Hres & Hstarts & _)].
    + left. exists p. rewrite Hres. repeat split.
      * simpl. rewrite Hstarts. reflexivity.
      * apply in_or_app. right. right. right. exact Hin.
    + right. exists thrown. rewrite Hres. split; [reflexivity|].
      right. simpl. rewrite Hstarts. reflexivity.
Qed.

Lemma scanProcesses_none (processes : list Process) :
  scanProcesses processes = None <->
  forall q, In q processes -> matchesService q && isActive (status q) = false.
Proof.
  induction processes as [|proc rest IH]; simpl.
  - split; [intros _ q [] | reflexivity].
  - fold (matchesService proc). split.
    + intros Hscan q [<- | Hq].
      * destruct (matchesService proc); [|reflexivity].
        destruct (isActive (status proc)); [discriminate | reflexivity].
      * apply IH; [|exact Hq].
        destruct (matchesService proc); [|exact Hscan].
        destruct (isActive (status proc)); [discriminate | exact Hscan].
    + intros Hnone. pose proof (Hnone proc (or_introl eq_refl)) as Hproc.
      assert (Hrest : scanProcesses rest = None) by (apply IH; intros q Hq; apply Hnone; auto).
      destruct (matchesService proc); [|exact Hrest].
      simpl in Hproc. rewrite Hproc. exact Hrest.
Qed.

(** *** Further properties of [ensureMoltbotGateway] and of discovery *)

(** X1. When [mountR2Storage] throws, [ensureMoltbotGateway] throws the
    same value and does nothing else: the processes are not listed and
    nothing is waited for, killed or started. *)
Theorem ensure_aborts_on_mount_failure (env : MoltbotEnv) (h : H) (e : Thrown) :
  snd (sb_mountR2Storage sandbox env h) = inl e ->
  ensure env h =
    mkRun (fst (sb_mountR2Storage sandbox env h)) [EvMountR2Storage env (inl e)] (inl e).
Proof.
  intros Hmount.
  assert (Hres : result (mount env h) = inl e) by exact Hmount.
  rewrite (ensure_unmounted env h e Hres), mount_events, Hmount. reflexivity.
Qed.

(** X2. When the mount went through and no listed process is an active
    gateway (none matches the signature without being excluded and has
    status [starting] or [running]), nothing is waited for or killed: the
    listing is followed by the console lines of the launch and the start
    of the gateway's command, and the run ends as the launch ends. *)
Theorem ensure_launches_when_nothing_found
    (env : MoltbotEnv) (h : H) (processes : list Process) :
  snd (sb_mountR2Storage sandbox env h) = inr tt ->
  let mounted := fst (sb_mountR2Storage sandbox env h) in
  snd (sb_listProcesses sandbox mounted) = inr processes ->
  (forall q, In q processes -> matchesService q && isActive (status q) = false) ->
  let listed := fst (sb_listProcesses sandbox mounted) in
  result (ensure env h) = result (launch env listed) /\
  kills (events (ensure env h)) = [] /\
  exists rest,
    events (ensure env h) =
      [EvMountR2Storage env (inr tt); EvListProcesses (inr processes)] ++
      launchLogs env ++
      EvStartProcess gatewayCommand (gatewayOptions (buildEnvVars env))
        (snd (sb_startProcess sandbox gatewayCommand (gatewayOptions (buildEnvVars env))
                listed)) :: rest.
Proof.
  intros Hmount mounted Hlist Hnone listed.
  assert (Hm : result (mount env h) = inr tt) by exact Hmount.
  pose proof (discover_listed mounted processes Hlist) as Hdiscover.
  rewrite (proj2 (scanProcesses_none processes) Hnone) in Hdiscover.
  assert (Hd : result (discover (final (mount env h))) = inr None)
    by (change (final (mount env h)) with mounted; rewrite Hdiscover; reflexivity).
  pose proof (reuse_none _ Hd) as Hreuse.
  change (final (mount env h)) with mounted in Hreuse. rewrite Hdiscover in Hreuse.
  cbn [final events] in Hreuse. fold listed in Hreuse.
  assert (Hr : result (reuse (final (mount env h))) = inr None)
    by (change (final (mount env h)) with mounted; rewrite Hreuse; reflexivity).
  rewrite (ensure_launched env h Hm Hr).
  change (final (mount env h)) with mounted. rewrite Hreuse, mount_events, Hmount.
  cbn [result events final].
  destruct (launch_shape env listed) as [rest Hshape].
  split; [reflexivity|]. split.
  - simpl. apply (notKill_kills _ (launch_notKill env listed)).
  - exists rest. rewrite Hshape. reflexivity.
Qed.

(** X3. When nothing is reused, the gateway's command starts a process,
    that process becomes reachable and its logs can be read, the run
    returns the started process; the gateway's command is the only one
    started, the only [getLogs()] is on the started process, and the last
    wait is the one on it, with the same options as for a reused process. *)
Theorem ensure_returns_started_process
    (env : MoltbotEnv) (h : H) (p : Process) (logs : Logs) :
  result (mount env h) = inr tt ->
  let mounted := final (mount env h) in
  result (reuse mounted) = inr None ->
  let reached := final (reuse mounted) in
  snd (sb_startProcess sandbox gatewayCommand (gatewayOptions (buildEnvVars env)) reached)
    = inr p ->
  let started :=
    fst (sb_startProcess sandbox gatewayCommand (gatewayOptions (buildEnvVars env)) reached) in
  snd (proc_waitForPort sandbox p MOLTBOT_PORT (mkWaitOptions "tcp" STARTUP_TIMEOUT_MS) started)
    = inr tt ->
  let waited := fst (proc_waitForPort sandbox p MOLTBOT_PORT
                       (mkWaitOptions "tcp" STARTUP_TIMEOUT_MS) started) in
  snd (proc_getLogs sandbox p waited) = inr logs ->
  result (ensure env h) = inr p /\
  final (ensure env h) = fst (proc_getLogs sandbox p waited) /\
  starts (events (ensure env h)) = [gatewayCommand] /\
  logReads (events (ensure env h)) = [p] /\
  waits (events (ensure env h)) =
    waits (events (reuse mounted)) ++ [(p, MOLTBOT_PORT, mkWaitOptions "tcp" STARTUP_TIMEOUT_MS)].
Proof.
  intros Hmount mounted Hreuse reached Hstart started Hwait waited Hlogs.
  rewrite (ensure_launched env h Hmount Hreuse). fold mounted. fold reached.
  rewrite (launch_started env reached p Hstart). fold started.
  rewrite (await_ready p started logs Hwait Hlogs). fold waited.
  cbn [result events final]. rewrite mount_events.
  pose proof (reuse_noStartNoLogs mounted) as Hquiet.
  repeat split.
  - rewrite !starts_app, (noStartNoLogs_starts _ Hquiet). simpl.
    destruct (truthy (stdout logs)), (truthy (stderr logs)); reflexivity.
  - rewrite !logReads_app, (noStartNoLogs_logReads _ Hquiet). simpl.
    destruct (truthy (stdout logs)), (truthy (stderr logs)); reflexivity.
  - rewrite !waits_app. simpl. f_equal.
    destruct (truthy (stdout logs)), (truthy (stderr logs)); reflexivity.
Qed.

(** X4. The [try] of line 100 also covers [getLogs()]: when the started
    process becomes reachable but reading its logs throws [e], the run
    does not return the process.  It reports [e] as a failed wait, spawns
    the reader of the log file and throws; when the log file is read, what
    it throws is the [Moltbot gateway failed to start] error. *)
Theorem ensure_fails_when_logs_unreadable
    (env : MoltbotEnv) (h : H) (p : Process) (e : Thrown) :
  result (mount env h) = inr tt ->
  let mounted := final (mount env h) in
  result (reuse mounted) = inr None ->
  let reached := final (reuse mounted) in
  snd (sb_startProcess sandbox gatewayCommand (gatewayOptions (buildEnvVars env)) reached)
    = inr p ->
  let started :=
    fst (sb_startProcess sandbox gatewayCommand (gatewayOptions (buildEnvVars env)) reached) in
  snd (proc_waitForPort sandbox p MOLTBOT_PORT (mkWaitOptions "tcp" STARTUP_TIMEOUT_MS) started)
    = inr tt ->
  let waited := fst (proc_waitForPort sandbox p MOLTBOT_PORT
                       (mkWaitOptions "tcp" STARTUP_TIMEOUT_MS) started) in
  snd (proc_getLogs sandbox p waited) = inl e ->
  let logged := fst (proc_getLogs sandbox p waited) in
  let spawn := sb_startProcess sandbox readLogCommand (mkStartOptions None) logged in
  (exists thrown, result (ensure env h) = inl thrown) /\
  starts (events (ensure env h)) = [gatewayCommand; readLogCommand] /\
  In (EvWaitForPort p MOLTBOT_PORT (mkWaitOptions "tcp" STARTUP_TIMEOUT_MS) (inr tt))
     (events (ensure env h)) /\
  In (EvConsole LevelError [LStr "[Gateway] waitForPort failed:"; LVal e])
     (events (ensure env h)) /\
  (forall readLog logContent,
     snd spawn = inr readLog ->
     snd (proc_getLogs sandbox readLog (fst spawn)) = inr logContent ->
     result (ensure env h) =
       inl (ErrorObj "Error"
              ("Moltbot gateway failed to start. Log: " +++ fullLogOf logContent))).
Proof.
  intros Hmount mounted Hreuse reached Hstart started Hwait waited Hlogs logged spawn.
  rewrite (ensure_launched env h Hmount Hreuse). fold mounted. fold reached.
  rewrite (launch_started env reached p Hstart). fold started.
  rewrite (await_unlogged p started e Hwait Hlogs). fold waited. fold logged.
  cbn [result events]. rewrite mount_events.
  pose proof (reuse_noStartNoLogs mounted) as Hquiet.
  destruct (readFile_shape e logged) as (thrown & rest & Hthrown & _).
  split; [exists thrown; exact Hthrown|]. split; [|split; [|split]].
  - rewrite !starts_app, (noStartNoLogs_starts _ Hquiet), readFile_starts. reflexivity.
  - find_event.
  - find_event.
  - intros readLog logContent Hspawn Hread.
    rewrite (readFile_read e logged readLog logContent Hspawn Hread). reflexivity.
Qed.

Lemma ensure_waitsInFull (env : MoltbotEnv) :
  emitsOnly (waitsInFull MOLTBOT_PORT STARTUP_TIMEOUT_MS) (ensure env).
Proof.
  unfold ensureMoltbotGateway, mountR2Storage, reuseExisting, findExistingMoltbotProcess,
    startGateway, awaitGateway, readStartupLog, listProcesses, waitForPort, kill, getLogs,
    startProcess, sleep, consoleLog, consoleError.
  repeat first
    [ apply emitsOnly_bind | apply emitsOnly_tryCatch | apply emitsOnly_ret
    | apply emitsOnly_throw | apply emitsOnly_emit | apply emitsOnly_call
    | exact I | exact (conj eq_refl eq_refl)
    | match goal with
      | |- emitsOnly _ (if ?c then _ else _) => destruct c
      | |- emitsOnly _ (match ?x with Some _ => _ | None => _ end) => destruct x
      end
    | intro ].
Qed.

(** X5. Every readiness wait of every run, on a discovered process or on
    the one just started, is on [MOLTBOT_PORT] in TCP mode with the whole
    [STARTUP_TIMEOUT_MS]. *)
Theorem every_wait_uses_full_timeout
    (env : MoltbotEnv) (h : H) (p : Process) (port : Z) (options : WaitOptions)
    (r : Thrown + unit) :
  In (EvWaitForPort p port options r) (events (ensure env h)) ->
  port = MOLTBOT_PORT /\ options = mkWaitOptions "tcp" STARTUP_TIMEOUT_MS.
Proof.
  intros Hin. pose proof (ensure_waitsInFull env h) as Hall.
  rewrite Forall_forall in Hall. exact (Hall _ Hin).
Qed.

(** X6. No run starts the gateway twice: the commands a run starts are
    none, or the gateway's command, or the gateway's command followed by
    the one read of the log file.  A failed start or a failed wait is
    never retried. *)
Theorem ensure_starts_gateway_at_most_once (env : MoltbotEnv) (h : H) :
  starts (events (ensure env h)) = [] \/
  starts (events (ensure env h)) = [gatewayCommand] \/
  starts (events (ensure env h)) = [gatewayCommand; readLogCommand].
Proof.
  destruct (result (mount env h)) as [e|[]] eqn:Hmount.
  { left. rewrite (ensure_unmounted env h e Hmount), mount_events. reflexivity. }
  pose proof (noStartNoLogs_starts _ (reuse_noStartNoLogs (final (mount env h)))) as Hquiet.
  destruct (reuse_never_throws (final (mount env h))) as [[p|] Hreuse].
  { left. rewrite (ensure_reused env h p Hmount Hreuse), mount_events. cbn [events].
    rewrite starts_app, Hquiet. reflexivity. }
  right. rewrite (ensure_launched env h Hmount Hreuse), mount_events. cbn [events].
  rewrite !starts_app, Hquiet.
  destruct (launch_cases env (final (reuse (final (mount env h)))))
    as [(p & _ & Hstarts & _) | (thrown & _ & [Hstarts|Hstarts])];
    rewrite Hstarts; auto.
Qed.

(** X7. No run kills more than once, and only a discovered process whose
    readiness wait, with the whole timeout, has failed is killed: the
    process just started is never killed, whatever becomes of it. *)
Theorem ensure_kills_only_a_stale_process (env : MoltbotEnv) (h : H) :
  kills (events (ensure env h)) = [] \/
  exists p e,
    kills (events (ensure env h)) = [p] /\
    result (discover (final (mount env h))) = inr (Some p) /\
    In (EvWaitForPort p MOLTBOT_PORT (mkWaitOptions "tcp" STARTUP_TIMEOUT_MS) (inl e))
       (events (ensure env h)).
Proof.
  destruct (result (mount env h)) as [e|[]] eqn:Hmount.
  { left. rewrite (ensure_unmounted env h e Hmount), mount_events. reflexivity. }
  set (mounted := final (mount env h)) in *.
  destruct (discover_quiet mounted) as (Hk & _ & _ & _).
  destruct (discover_never_throws mounted) as [[p|] Hfound].
  - destruct (snd (proc_waitForPort sandbox p MOLTBOT_PORT fullTimeout (final (discover mounted))))
      as [e|[]] eqn:Hwait.
    + right. exists p, e.
      pose proof (reuse_stale mounted p e Hfound Hwait) as Hreuse. cbv zeta in Hreuse.
      assert (Hres : result (reuse mounted) = inr None) by (rewrite Hreuse; reflexivity).
      rewrite (ensure_launched env h Hmount Hres). fold mounted. rewrite Hreuse.
      cbn [result events final]. rewrite mount_events.
      match goal with
      | |- context [events (launch env ?reached)] =>
          pose proof (notKill_kills _ (launch_notKill env reached)) as Hquiet
      end.
      split; [|split; [exact Hfound|]].
      * rewrite !kills_app, Hk, Hquiet. simpl.
        destruct (snd (proc_kill sandbox p _)) as [killError|[]]; reflexivity.
      * find_event.
    + left.
      pose proof (reuse_ready mounted p Hfound Hwait) as Hreuse.
      assert (Hres : result (reuse mounted) = inr (Some p)) by (rewrite Hreuse; reflexivity).
      rewrite (ensure_reused env h p Hmount Hres). fold mounted. rewrite Hreuse.
      cbn [events]. rewrite mount_events, !kills_app, Hk. reflexivity.
  - left.
    pose proof (reuse_none mounted Hfound) as Hreuse.
    assert (Hres : result (reuse mounted) = inr None) by (rewrite Hreuse; reflexivity).
    rewrite (ensure_launched env h Hmount Hres). fold mounted. rewrite Hreuse.
    cbn [events final]. rewrite mount_events, !kills_app, Hk.
    rewrite (notKill_kills _ (launch_notKill env _)). reflexivity.
Qed.

(** X8. A process that [ensureMoltbotGateway] returns has been waited for
    in that run and was reachable: the run contains a successful wait on
    it, on [MOLTBOT_PORT] with the whole timeout. *)
Theorem ensure_returns_only_a_reachable_process
    (env : MoltbotEnv) (h : H) (p : Process) :
  result (ensure env h) = inr p ->
  In (EvWaitForPort p MOLTBOT_PORT (mkWaitOptions "tcp" STARTUP_TIMEOUT_MS) (inr tt))
     (events (ensure env h)).
Proof.
  destruct (result (mount env h)) as [e|[]] eqn:Hmount.
  { rewrite (ensure_unmounted env h e Hmount). discriminate. }
  set (mounted := final (mount env h)) in *.
  assert (Hlaunch : forall reached,
            result (launch env reached) = inr p ->
            In (EvWaitForPort p MOLTBOT_PORT fullTimeout (inr tt))
               (events (launch env reached))).
  { intros reached Hres.
    destruct (launch_cases env reached) as [(p' & Hres' & _ & Hin) | (thrown & Hres' & _)];
      rewrite Hres' in Hres; [injection Hres as <-; exact Hin | discriminate]. }
  destruct (discover_never_throws mounted) as [[p'|] Hfound].
  - destruct (snd (proc_waitForPort sandbox p' MOLTBOT_PORT fullTimeout
                     (final (discover mounted)))) as [e|[]] eqn:Hwait.
    + pose proof (reuse_stale mounted p' e Hfound Hwait) as Hreuse. cbv zeta in Hreuse.
      assert (Hres : result (reuse mounted) = inr None) by (rewrite Hreuse; reflexivity).
      rewrite (ensure_launched env h Hmount Hres). fold mounted. cbn [result events].
      intros Hp. apply in_or_app. right. apply in_or_app. right. apply Hlaunch. exact Hp.
    + pose proof (reuse_ready mounted p' Hfound Hwait) as Hreuse.
      assert (Hres : result (reuse mounted) = inr (Some p')) by (rewrite Hreuse; reflexivity).
      rewrite (ensure_reused env h p' Hmount Hres). fold mounted. rewrite Hreuse.
      cbn [result events]. intros [= <-]. find_event.
  - pose proof (reuse_none mounted Hfound) as Hreuse.
    assert (Hres : result (reuse mounted) = inr None) by (rewrite Hreuse; reflexivity).
    rewrite (ensure_launched env h Hmount Hres). fold mounted. cbn [result events].
    intros Hp. apply in_or_app. right. apply in_or_app. right. apply Hlaunch. exact Hp.
Qed.

(** X9. Discovery only looks: it calls [listProcesses] once, leaves the
    host as that call left it, and waits for, kills, starts and reads the
    logs of nothing. *)
Theorem discover_only_lists (h : H) :
  final (discover h) = fst (sb_listProcesses sandbox h) /\
  (exists lines,
     events (discover h) = EvListProcesses (snd (sb_listProcesses sandbox h)) :: lines /\
     Forall (fun ev => exists lvl args, ev = EvConsole lvl args) lines) /\
  kills (events (discover h)) = [] /\ starts (events (discover h)) = [] /\
  waits (events (discover h)) = [] /\ logReads (events (discover h)) = [].
Proof.
  destruct (snd (sb_listProcesses sandbox h)) as [e|processes] eqn:Hlist.
  - rewrite (discover_unlisted h e Hlist). cbn [final events].
    repeat split; try reflexivity.
    eexists. split; [reflexivity|]. repeat constructor. eauto.
  - rewrite (discover_listed h processes Hlist). cbn [final events].
    repeat split; try reflexivity.
    exists []. split; [reflexivity | constructor].
Qed.

(** X10. Processes that are not active, and processes that do not match
    the service, are invisible to the loop: dropping either kind from the
    list does not change what is found. *)
Theorem scanProcesses_ignores_the_rest (processes : list Process) :
  scanProcesses (filter (fun p => isActive (status p)) processes) = scanProcesses processes /\
  scanProcesses (filter matchesService processes) = scanProcesses processes.
Proof.
  split; induction processes as [|proc rest IH]; simpl; auto;
    fold (matchesService proc).
  - destruct (isActive (status proc)) eqn:Hactive; simpl.
    + fold (matchesService proc). rewrite Hactive, IH. reflexivity.
    + rewrite IH. destruct (matchesService proc); reflexivity.
  - destruct (matchesService proc) eqn:Hmatch; simpl.
    + fold (matchesService proc). rewrite Hmatch, IH. reflexivity.
    + exact IH.
Qed.

(** X11. The loop goes through the list in order: over two lists one
    after the other it finds what it finds in the first, and looks at the
    second only when the first has no active gateway. *)
Theorem scanProcesses_app (first second : list Process) :
  scanProcesses (first ++ second) =
    match scanProcesses first with
    | Some p => Some p
    | None => scanProcesses second
    end.
Proof.
  induction first as [|proc rest IH]; simpl; [reflexivity|].
  destruct (isGatewayProcess (command proc) && negb (isCliCommand (command proc)));
    [|exact IH].
  destruct (isActive (status proc)); [reflexivity | exact IH].
Qed.

(** X12. Discovery returns [null] in exactly two cases: the processes
    could not be listed, or no listed process is an active gateway. *)
Theorem discover_null_iff (h : H) :
  result (discover h) = inr None <->
  (exists e, snd (sb_listProcesses sandbox h) = inl e) \/
  (exists processes,
     snd (sb_listProcesses sandbox h) = inr processes /\
     forall q, In q processes ->
       ~ (matchesService q = true /\ (status q = "starting" \/ status q = "running"))).
Proof.
  destruct (snd (sb_listProcesses sandbox h)) as [e|processes] eqn:Hlist.
  - rewrite (discover_unlisted h e Hlist). cbn [result]. split; [eauto | reflexivity].
  - rewrite (discover_listed h processes Hlist). cbn [result]. split.
    + intros [= Hscan]. right. exists processes. split; [reflexivity|].
      intros q Hq [Hmatch Hactive]. apply isActive_iff in Hactive.
      pose proof (proj1 (scanProcesses_none processes) Hscan q Hq) as Hnone.
      rewrite Hmatch, Hactive in Hnone. discriminate.
    + intros [[e Habs] | (processes' & [= <-] & Hnone)]; [discriminate|].
      f_equal. apply scanProcesses_none. intros q Hq.
      destruct (matchesService q) eqn:Hmatch; [|reflexivity].
      destruct (isActive (status q)) eqn:Hactive; [|reflexivity].
      exfalso. apply (Hnone q Hq). split; [exact Hmatch|]. apply isActive_iff. exact Hactive.
Qed.

End Supervisor.

(** *** The theorems on the concrete hosts *)

Import Scenarios.

Local Abbreviation find := (findExistingMoltbotProcess (MoltbotEnv:=Auth.MoltbotEnv)).

Ltac pick_event := vm_compute; repeat (try (left; reflexivity); right).

(** On [healthy], the listed gateway is reused. *)
Lemma ensure_reuses_ready_process_witness :
  result (ensure healthy 0) = inr gateway /\
  waits (events (ensure healthy 0)) = [(gateway, port, mkWaitOptions "tcp" startupTimeout)] /\
  kills (events (ensure healthy 0)) = [] /\
  starts (events (ensure healthy 0)) = [].
Proof.
  apply (ensure_reuses_ready_process Auth.MoltbotEnv nat port startupTimeout sampleEnvVars
           (scripted healthy) noEnv 0 gateway); reflexivity.
Defined.

(** On [healthy], the running [clawdbot devices list] command is not
    returned although its command line also contains [clawdbot gateway]. *)
Lemma discover_excludes_cli_commands_witness :
  isGatewayProcess (command pairing) = true /\
  result (find (scripted healthy) 0) <> inr (Some pairing).
Proof.
  split; [reflexivity|].
  apply (discover_excludes_cli_commands Auth.MoltbotEnv nat (scripted healthy) 0 pairing).
  left; reflexivity.
Defined.

(** On [healthy], the third listed process is the first active match. *)
Lemma discover_returns_first_active_match_witness :
  result (find (scripted healthy) 0) = inr (discoverSpec [crashed; pairing; gateway]) /\
  forall p, result (find (scripted healthy) 0) = inr (Some p) ->
    (status p = "starting" \/ status p = "running") /\
    isGatewayProcess (command p) = true /\ isCliCommand (command p) = false /\
    exists before after,
      [crashed; pairing; gateway] = before ++ p :: after /\
      forall q, In q before ->
        ~ (matchesService q = true /\ (status q = "starting" \/ status q = "running")).
Proof.
  apply (discover_returns_first_active_match Auth.MoltbotEnv nat (scripted healthy) 0
           [crashed; pairing; gateway]).
  reflexivity.
Defined.

(** On [stuck], the listed gateway is killed once, the kill fails, and a
    fresh gateway is started all the same. *)
Lemma ensure_kills_stale_once_then_starts_witness :
  kills (events (ensure stuck 0)) = [gateway] /\
  (exists before between after outcome,
     events (ensure stuck 0) =
       before ++ EvKill gateway (inl (ErrorObj "Error" "No such process")) :: between ++
       EvStartProcess gatewayCommand (mkStartOptions None) outcome :: after /\
     starts before = [] /\ starts between = [] /\
     forall killError, @inl Thrown unit (ErrorObj "Error" "No such process") = inl killError ->
       In (EvConsole LevelLog [LStr "Failed to kill process:"; LVal killError]) between) /\
  result (ensure stuck 0) = inr fresh.
Proof.
  apply (ensure_kills_stale_once_then_starts Auth.MoltbotEnv nat port startupTimeout
           sampleEnvVars (scripted stuck) noEnv 0 gateway portTimeout); reflexivity.
Defined.

(** On [exhausted], the run throws what [startProcess] threw. *)
Lemma ensure_propagates_start_failure_witness :
  result (ensure exhausted 0) = inl startFailure /\
  logReads (events (ensure exhausted 0)) = [] /\
  starts (events (ensure exhausted 0)) = [gatewayCommand].
Proof.
  apply (ensure_propagates_start_failure Auth.MoltbotEnv nat port startupTimeout
           sampleEnvVars (scripted exhausted) noEnv 0 (mkStartOptions None) startFailure).
  pick_event.
Defined.

(** On [unreachable], discovery returns [null] and a gateway is started. *)
Lemma discover_fails_soft_witness :
  result (find (scripted unreachable) 1) = inr None /\
  result (ensure unreachable 0) = inr fresh.
Proof.
  destruct (discover_fails_soft Auth.MoltbotEnv nat port startupTimeout sampleEnvVars
              (scripted unreachable) noEnv 0 (ErrorObj "Error" "Sandbox unreachable")
              eq_refl eq_refl) as (Hdiscover & _ & Hensure).
  split; [exact (f_equal result Hdiscover) | exact (f_equal result Hensure)].
Defined.

(** On [crashing], the failed wait is followed by the spawn of the reader. *)
Lemma readiness_failure_dumps_log_file_witness :
  exists before after,
    events (ensure crashing 0) =
      before ++
      [EvWaitForPort fresh port (mkWaitOptions "tcp" startupTimeout) (inl portTimeout);
       EvConsole LevelError [LStr "[Gateway] waitForPort failed:"; LVal portTimeout];
       EvStartProcess readLogCommand (mkStartOptions None) (inr reader)] ++ after /\
    logReads before = [] /\
    (forall logErr, @inr Thrown _ reader = inl logErr -> logReads after = []) /\
    (forall readLog, @inr Thrown _ reader = inr readLog ->
       exists rest,
         after = EvSetTimeout 3000 :: EvGetLogs readLog (logsOf readLog) :: rest /\
         logReads rest = []).
Proof.
  apply (readiness_failure_dumps_log_file Auth.MoltbotEnv nat port startupTimeout
           sampleEnvVars (scripted crashing) noEnv 0 fresh portTimeout); reflexivity.
Defined.

(** On [crashing], the thrown error carries the standard error of the
    reader; on [blind], the readiness error comes back. *)
Lemma readiness_failure_surfaces_diagnostics_witness :
  result (ensure crashing 0) =
    inl (ErrorObj "Error" "Moltbot gateway failed to start. Log: config: missing token") /\
  result (ensure blind 0) = inl portTimeout.
Proof.
  split.
  - destruct (readiness_failure_surfaces_diagnostics Auth.MoltbotEnv nat port startupTimeout
                sampleEnvVars (scripted crashing) noEnv 0 fresh portTimeout
                eq_refl eq_refl eq_refl eq_refl) as [Hread _].
    destruct (Hread reader fileLogs eq_refl eq_refl) as [Hresult _]. exact Hresult.
  - destruct (readiness_failure_surfaces_diagnostics Auth.MoltbotEnv nat port startupTimeout
                sampleEnvVars (scripted blind) noEnv 0 fresh portTimeout
                eq_refl eq_refl eq_refl eq_refl) as [_ Hfailed].
    apply (Hfailed readerFailure); [left|]; reflexivity.
Defined.

(** C5 fails as stated.  On [crashing] the gateway is started, the wait
    on it fails, the host's log API has output for it, and the reader is
    spawned without any [getLogs()] on the gateway before. *)
Lemma crashing_run_skips_log_api :
  In (EvStartProcess gatewayCommand (mkStartOptions None) (inr fresh))
     (events (ensure crashing 0)) /\
  In (EvWaitForPort fresh port (mkWaitOptions "tcp" startupTimeout) (inl portTimeout))
     (events (ensure crashing 0)) /\
  (forall n, snd (proc_getLogs (scripted crashing) fresh n) = inr bootLogs) /\
  ~ consultsLogApiFirst (events (ensure crashing 0)) fresh.
Proof.
  split; [pick_event|]. split; [pick_event|]. split; [reflexivity|].
  intros Hclaim.
  destruct (Hclaim (firstn 10 (events (ensure crashing 0))) (mkStartOptions None)
              (inr reader) (skipn 11 (events (ensure crashing 0))) eq_refl)
    as [lr [Hin _]].
  vm_compute in Hin.
  repeat (destruct Hin as [Hin|Hin]; [discriminate Hin|]). exact Hin.
Qed.

(** C6 fails as stated.  On [misleading] the wait on the fresh gateway
    fails with [portTimeout], the reader cannot be spawned, and the run
    throws the host's error, not [portTimeout]. *)
Lemma misleading_run_loses_readiness_error :
  In (EvWaitForPort fresh port (mkWaitOptions "tcp" startupTimeout) (inl portTimeout))
     (events (ensure misleading 0)) /\
  In (EvStartProcess readLogCommand (mkStartOptions None) (inl lookalike))
     (events (ensure misleading 0)) /\
  result (ensure misleading 0) = inl lookalike /\
  result (ensure misleading 0) <> inl portTimeout.
Proof.
  split; [pick_event|]. split; [pick_event|]. split; [reflexivity|].
  vm_compute. discriminate.
Qed.

(** *** The further properties on the concrete hosts *)

(** On [unmountable], the run stops at the mount. *)
Lemma ensure_aborts_on_mount_failure_witness :
  ensureMoltbotGateway port startupTimeout sampleEnvVars unmountable noEnv 0 =
    mkRun 1 [EvMountR2Storage noEnv (inl mountFailure)] (inl mountFailure).
Proof.
  apply (ensure_aborts_on_mount_failure Auth.MoltbotEnv nat port startupTimeout
           sampleEnvVars unmountable noEnv 0 mountFailure).
  reflexivity.
Defined.

(** On [cold], the crashed gateway and the CLI command are passed over
    and the gateway is started right after the listing. *)
Lemma ensure_launches_when_nothing_found_witness :
  result (ensure cold 0) = inr fresh /\
  kills (events (ensure cold 0)) = [] /\
  exists rest,
    events (ensure cold 0) =
      [EvMountR2Storage noEnv (inr tt); EvListProcesses (inr [crashed; pairing])] ++
      launchLogs sampleEnvVars noEnv ++
      EvStartProcess gatewayCommand (mkStartOptions None) (inr fresh) :: rest.
Proof.
  apply (ensure_launches_when_nothing_found Auth.MoltbotEnv nat port startupTimeout
           sampleEnvVars (scripted cold) noEnv 0 [crashed; pairing]); try reflexivity.
  intros q [<- | [<- | []]]; reflexivity.
Defined.

(** On [cold], the started gateway is returned. *)
Lemma ensure_returns_started_process_witness :
  result (ensure cold 0) = inr fresh /\
  final (ensure cold 0) = 5 /\
  starts (events (ensure cold 0)) = [gatewayCommand] /\
  logReads (events (ensure cold 0)) = [fresh] /\
  waits (events (ensure cold 0)) = [] ++ [(fresh, port, mkWaitOptions "tcp" startupTimeout)].
Proof.
  apply (ensure_returns_started_process Auth.MoltbotEnv nat port startupTimeout
           sampleEnvVars (scripted cold) noEnv 0 fresh bootLogs); reflexivity.
Defined.

(** On [mute], the gateway is reachable and the run still throws. *)
Lemma ensure_fails_when_logs_unreadable_witness :
  In (EvWaitForPort fresh port (mkWaitOptions "tcp" startupTimeout) (inr tt))
     (events (ensure mute 0)) /\
  result (ensure mute 0) =
    inl (ErrorObj "Error" "Moltbot gateway failed to start. Log: config: missing token").
Proof.
  destruct (ensure_fails_when_logs_unreadable Auth.MoltbotEnv nat port startupTimeout
              sampleEnvVars (scripted mute) noEnv 0 fresh logFailure
              eq_refl eq_refl eq_refl eq_refl eq_refl)
    as (_ & _ & Hwaited & _ & Hread).
  split; [exact Hwaited|]. exact (Hread reader fileLogs eq_refl eq_refl).
Defined.

(** On [stuck], the wait on the listed gateway has the whole timeout. *)
Lemma every_wait_uses_full_timeout_witness :
  port = port /\ mkWaitOptions "tcp" startupTimeout = mkWaitOptions "tcp" startupTimeout.
Proof.
  apply (every_wait_uses_full_timeout Auth.MoltbotEnv nat port startupTimeout
           sampleEnvVars (scripted stuck) noEnv 0 gateway port
           (mkWaitOptions "tcp" startupTimeout) (inl portTimeout)).
  pick_event.
Defined.

(** On [healthy], the returned gateway was waited for. *)
Lemma ensure_returns_only_a_reachable_process_witness :
  In (EvWaitForPort gateway port (mkWaitOptions "tcp" startupTimeout) (inr tt))
     (events (ensure healthy 0)).
Proof.
  apply (ensure_returns_only_a_reachable_process Auth.MoltbotEnv nat port startupTimeout
           sampleEnvVars (scripted healthy) noEnv 0 gateway).
  reflexivity.
Defined.

End GatewayFacts.

(** ** The access middleware *)
Module AuthFacts.
Import Js JsFacts Auth.

Section Middleware.
Variable H : Type.
Variable verifyAccessJWT : string -> string -> string -> H -> H * (Thrown + JWTPayload).
Variable basicAuth :
  string -> string -> Next H -> Context H -> Context H * (Thrown + option Response).

Local Abbreviation middleware := (createAccessMiddleware verifyAccessJWT basicAuth).

Lemma isDevMode_iff (env : MoltbotEnv) : isDevMode env = true <-> DEV_MODE env = Some "true".
Proof.
  unfold isDevMode. destruct (DEV_MODE env) as [v|].
  - rewrite String.eqb_eq. split; congruence.
  - split; discriminate.
Qed.

Lemma isE2ETestMode_iff (env : MoltbotEnv) :
  isE2ETestMode env = true <-> E2E_TEST_MODE env = Some "true".
Proof.
  unfold isE2ETestMode. destruct (E2E_TEST_MODE env) as [v|].
  - rewrite String.eqb_eq. split; congruence.
  - split; discriminate.
Qed.

Lemma whenTruthy_Some (v : option string) (s : string) :
  whenTruthy v = Some s <-> v = Some s /\ s <> "".
Proof.
  unfold whenTruthy. destruct v as [[|c t]|]; simpl.
  - split; [discriminate | intros [[= <-] Hne]; congruence].
  - split; [intros [= <-]; split; [reflexivity | discriminate] | intros [Heq _]; exact Heq].
  - split; [discriminate | intros [Heq _]; discriminate].
Qed.

Lemma whenTruthy_idem (v : option string) : whenTruthy (whenTruthy v) = whenTruthy v.
Proof. destruct v as [[|ch t]|]; reflexivity. Qed.

(** What [extractJWT] returns is never the empty string. *)
Lemma extractJWT_truthy (req : Request) : whenTruthy (extractJWT req) = extractJWT req.
Proof.
  unfold extractJWT.
  destruct (whenTruthy (header req "CF-Access-JWT-Assertion")) as [jwt|] eqn:Hheader.
  - apply whenTruthy_Some in Hheader as [_ Hne]. apply whenTruthy_Some. auto.
  - apply whenTruthy_idem.
Qed.

(** C9. With [DEV_MODE] or [E2E_TEST_MODE] equal to ['true'], the
    middleware stores [{email: 'dev@localhost', name: 'Dev User'}] under
    ['accessUser'] and calls the downstream handler in that context, and
    that is all it does, whatever the request carries and whatever else
    is configured. *)
Theorem dev_mode_bypasses_auth
    (options : AccessMiddlewareOptions) (env : MoltbotEnv) (req : Request)
    (next : Next H) (c : Context H) :
  DEV_MODE env = Some "true" \/ E2E_TEST_MODE env = Some "true" ->
  let c' := mkContext (Some (mkUser "dev@localhost" (Some "Dev User"))) (app c) in
  middleware options env req next c =
    mkRun (fst (next c'))
      [EvNext (Some (mkUser "dev@localhost" (Some "Dev User"))) (snd (next c'))]
      (match snd (next c') with
       | inl thrown => inl thrown
       | inr _ => inr None
       end).
Proof.
  intros Hmode c'.
  assert (Hskip : isDevMode env || isE2ETestMode env = true).
  { apply orb_true_iff. destruct Hmode as [Hdev|He2e];
      [left; apply isDevMode_iff | right; apply isE2ETestMode_iff]; assumption. }
  unfold createAccessMiddleware. rewrite Hskip.
  unfold bind, setAccessUser, callNext, call, ret. simpl. subst c'.
  change (mkUser "dev@localhost" (Some "Dev User")) with devUser.
  destruct (next (mkContext (Some devUser) (app c))) as [c2 [thrown|[]]]; reflexivity.
Qed.

(** C10. Outside dev and E2E mode, with [CF_ACCESS_TEAM_DOMAIN] and
    [CF_ACCESS_AUD] both set to non-empty values: the downstream handler
    is called only when a JWT was extracted and [verifyAccessJWT] accepted
    it; without a JWT the answer is the 302 redirect to
    [https://teamDomain] when [type] is ['html'] and [redirectOnMissing]
    is [true], and otherwise the 401 (the JSON object for ['json'], the
    page for ['html']); with a rejected JWT the answer is the 401 of the
    [type], with or without [redirectOnMissing], and the handler is not
    called; the Basic Auth middleware is never run and the answer is
    never the 500 of a missing configuration. *)
Theorem access_branch_gates_on_jwt
    (options : AccessMiddlewareOptions) (env : MoltbotEnv) (req : Request)
    (next : Next H) (c : Context H) (teamDomain expectedAud : string) :
  DEV_MODE env <> Some "true" ->
  E2E_TEST_MODE env <> Some "true" ->
  CF_ACCESS_TEAM_DOMAIN env = Some teamDomain -> teamDomain <> "" ->
  CF_ACCESS_AUD env = Some expectedAud -> expectedAud <> "" ->
  let run := middleware options env req next c in
  (nexts (events run) <> [] ->
   exists jwt payload,
     extractJWT req = Some jwt /\
     snd (verifyAccessJWT jwt teamDomain expectedAud (app c)) = inr payload /\
     nexts (events run) = [Some (mkUser (payload_email payload) (payload_name payload))]) /\
  (extractJWT req = None ->
   events run = [] /\
   (type options = TypeHtml -> redirectOnMissing options = Some true ->
    result run = inr (Some (Redirect ("https://" +++ teamDomain) 302))) /\
   (type options = TypeJson ->
    result run =
      inr (Some (Json
        [("error", "Unauthorized");
         ("hint", "Missing Cloudflare Access JWT. Ensure this route is protected by Cloudflare Access.")]
        401))) /\
   (type options = TypeHtml -> redirectOnMissing options <> Some true ->
    result run = inr (Some (Html (missingTokenPage teamDomain) 401))) /\
   exists response,
     result run = inr (Some response) /\
     (statusCode response = 401%Z \/
      statusCode response = 302%Z /\ response = Redirect ("https://" +++ teamDomain) 302 /\
      type options = TypeHtml /\ redirectOnMissing options = Some true)) /\
  (forall jwt thrown,
     extractJWT req = Some jwt ->
     snd (verifyAccessJWT jwt teamDomain expectedAud (app c)) = inl thrown ->
     nexts (events run) = [] /\
     exists response,
       result run = inr (Some response) /\ statusCode response = 401%Z /\
       (type options = TypeJson ->
        response = Json
          [("error", "Unauthorized");
           ("details", match thrown with
                       | ErrorObj _ message => message
                       | NonError _ => "JWT verification failed"
                       end)]
          401) /\
       (type options = TypeHtml -> response = Html (invalidSessionPage teamDomain) 401)) /\
  basicAuthCalls (events run) = [] /\
  (forall response, result run = inr (Some response) -> statusCode response <> 500%Z).
Proof.
  intros Hdev He2e Hteam HteamSet Haud HaudSet run.
  assert (Hskip : isDevMode env || isE2ETestMode env = false).
  { apply orb_false_iff. split; apply not_true_is_false.
    - rewrite isDevMode_iff. exact Hdev.
    - rewrite isE2ETestMode_iff. exact He2e. }
  assert (Hteam' : whenTruthy (CF_ACCESS_TEAM_DOMAIN env) = Some teamDomain)
    by (apply whenTruthy_Some; auto).
  assert (Haud' : whenTruthy (CF_ACCESS_AUD env) = Some expectedAud)
    by (apply whenTruthy_Some; auto).
  subst run. unfold createAccessMiddleware.
  rewrite Hskip, Hteam', Haud', extractJWT_truthy.
  destruct (extractJWT req) as [jwt|] eqn:Hjwt.
  - unfold bind, tryCatch, callVerify, callNext, setAccessUser, consoleError, emit, call, ret.
    simpl.
    destruct (snd (verifyAccessJWT jwt teamDomain expectedAud (app c)))
      as [thrown|payload] eqn:Hverify; simpl.
    + destruct (type options); simpl;
        (split; [intros Habs; exfalso; apply Habs; reflexivity|]);
        (split; [discriminate|]);
        (split; [intros jwt' thrown' [= <-] Hthrown;
                 assert (thrown' = thrown) as -> by congruence;
                 split; [reflexivity|];
                 eexists; split; [reflexivity|]; split; [reflexivity|];
                 split; intros; first [reflexivity | congruence]|]);
        (split; [reflexivity | intros response [= <-]; discriminate]).
    + destruct (next _) as [c2 [failure|[]]]; simpl;
        (split; [intros _; exists jwt, payload; repeat split;
                 first [exact Hverify | reflexivity]|]);
        (split; [discriminate|]);
        (split; [intros jwt' thrown' [= <-] Habs; congruence|]);
        (split; [reflexivity | intros response Habs; discriminate Habs]).
  - destruct (type options) eqn:Htype;
      destruct (redirectOnMissing options) as [[|]|] eqn:Hredirect; simpl;
      (split; [intros Habs; exfalso; apply Habs; reflexivity|]);
      (split; [intros _; split; [reflexivity|];
               (split; [intros; first [reflexivity | congruence]|]);
               (split; [intros; first [reflexivity | congruence]|]);
               (split; [intros; first [reflexivity | congruence]|]);
               eexists; split; [reflexivity | simpl; auto 10]|]);
      (split; [intros jwt thrown Habs; discriminate Habs|]);
      (split; [reflexivity | intros response [= <-]; discriminate]).
Qed.

(** *** Further properties of the middleware *)

Lemma whenTruthy_None (v : option string) :
  whenTruthy v = None <-> v = None \/ v = Some "".
Proof.
  destruct v as [[|ch t]|]; simpl.
  - split; auto.
  - split; [discriminate | intros [Habs|Habs]; discriminate Habs].
  - split; auto.
Qed.

Lemma skip_false (env : MoltbotEnv) :
  DEV_MODE env <> Some "true" -> E2E_TEST_MODE env <> Some "true" ->
  isDevMode env || isE2ETestMode env = false.
Proof.
  intros Hdev He2e. apply orb_false_iff. split; apply not_true_is_false.
  - rewrite isDevMode_iff. exact Hdev.
  - rewrite isE2ETestMode_iff. exact He2e.
Qed.

(** Without both Access bindings the middleware goes on to lines 124 to
    150. *)
Lemma access_skipped (options : AccessMiddlewareOptions) (env : MoltbotEnv) (req : Request)
    (next : Next H) :
  DEV_MODE env <> Some "true" -> E2E_TEST_MODE env <> Some "true" ->
  whenTruthy (CF_ACCESS_TEAM_DOMAIN env) = None \/ whenTruthy (CF_ACCESS_AUD env) = None ->
  middleware options env req next =
    match whenTruthy (BASIC_AUTH_USER env), whenTruthy (BASIC_AUTH_PASS env) with
    | Some username, Some password =>
        bind (setAccessUser H basicAuthUser)
             (fun _ => callBasicAuth H basicAuth username password next)
    | _, _ =>
        match type options with
        | TypeJson =>
            ret (Some (Json
              [("error", "Authentication not configured");
               ("hint", "Set CF_ACCESS_TEAM_DOMAIN/CF_ACCESS_AUD for Zero Trust, or BASIC_AUTH_USER/BASIC_AUTH_PASS for Basic Auth.")]
              500))
        | TypeHtml => ret (Some (Html notConfiguredPage 500))
        end
    end.
Proof.
  intros Hdev He2e Hnone. unfold createAccessMiddleware.
  rewrite (skip_false env Hdev He2e).
  destruct Hnone as [-> | Hnone]; [reflexivity|].
  rewrite Hnone. destruct (whenTruthy (CF_ACCESS_TEAM_DOMAIN env)); reflexivity.
Qed.

Ltac choose_disjunct :=
  match goal with
  | |- _ \/ _ => (left; choose_disjunct) || (right; choose_disjunct)
  | |- _ = _ => reflexivity
  end.

(** X13. The header wins over the cookie: with Access configured, a
    non-empty [CF-Access-JWT-Assertion] header is the token that is
    verified, against the configured team domain and audience, whatever
    the [Cookie] header holds. *)
Theorem header_token_is_verified
    (options : AccessMiddlewareOptions) (env : MoltbotEnv) (req : Request)
    (next : Next H) (c : Context H) (teamDomain expectedAud token : string) :
  DEV_MODE env <> Some "true" ->
  E2E_TEST_MODE env <> Some "true" ->
  CF_ACCESS_TEAM_DOMAIN env = Some teamDomain -> teamDomain <> "" ->
  CF_ACCESS_AUD env = Some expectedAud -> expectedAud <> "" ->
  header req "CF-Access-JWT-Assertion" = Some token -> token <> "" ->
  extractJWT req = Some token /\
  exists rest,
    events (middleware options env req next c) =
      EvVerifyAccessJWT token teamDomain expectedAud
        (snd (verifyAccessJWT token teamDomain expectedAud (app c))) :: rest.
Proof.
  intros Hdev He2e Hteam HteamSet Haud HaudSet Hheader Htoken.
  assert (Hjwt : extractJWT req = Some token).
  { unfold extractJWT. rewrite Hheader.
    rewrite (proj2 (whenTruthy_Some (Some token) token) (conj eq_refl Htoken)).
    reflexivity. }
  split; [exact Hjwt|].
  unfold createAccessMiddleware.
  rewrite (skip_false env Hdev He2e).
  rewrite (proj2 (whenTruthy_Some _ teamDomain) (conj Hteam HteamSet)).
  rewrite (proj2 (whenTruthy_Some _ expectedAud) (conj Haud HaudSet)).
  rewrite extractJWT_truthy, Hjwt.
  unfold bind, tryCatch, callVerify, callNext, setAccessUser, consoleError, emit, call, ret.
  simpl.
  destruct (snd (verifyAccessJWT token teamDomain expectedAud (app c))) as [thrown|payload];
    simpl.
  - destruct (type options); simpl; eauto.
  - destruct (next _) as [c2 [failure|[]]]; simpl; eauto.
Qed.

(** X15. Without both Access bindings and with both Basic Auth bindings
    non-empty, the middleware first stores
    [{email: 'user@basic-auth', name: 'Authorized User'}] under
    ['accessUser'] and then hands the request to the Basic Auth
    middleware built from the two bindings; what that returns or throws
    is the outcome.  No token is verified, even if the request carries
    one, and the user is stored before any credential is checked. *)
Theorem basic_auth_is_the_fallback
    (options : AccessMiddlewareOptions) (env : MoltbotEnv) (req : Request)
    (next : Next H) (c : Context H) (username password : string) :
  DEV_MODE env <> Some "true" ->
  E2E_TEST_MODE env <> Some "true" ->
  CF_ACCESS_TEAM_DOMAIN env = None \/ CF_ACCESS_TEAM_DOMAIN env = Some "" \/
  CF_ACCESS_AUD env = None \/ CF_ACCESS_AUD env = Some "" ->
  BASIC_AUTH_USER env = Some username -> username <> "" ->
  BASIC_AUTH_PASS env = Some password -> password <> "" ->
  let c' := mkContext (Some (mkUser "user@basic-auth" (Some "Authorized User"))) (app c) in
  middleware options env req next c =
    mkRun (fst (basicAuth username password next c'))
      [EvBasicAuth username password (snd (basicAuth username password next c'))]
      (snd (basicAuth username password next c')).
Proof.
  intros Hdev He2e Haccess Huser HuserSet Hpass HpassSet c'.
  rewrite access_skipped; try assumption.
  - rewrite (proj2 (whenTruthy_Some _ username) (conj Huser HuserSet)).
    rewrite (proj2 (whenTruthy_Some _ password) (conj Hpass HpassSet)).
    unfold bind, setAccessUser, callBasicAuth, call. simpl. reflexivity.
  - rewrite !whenTruthy_None. tauto.
Qed.

(** X16. Without both Access bindings and without both Basic Auth
    bindings the request is answered with status 500 (the JSON object or
    the page about the missing configuration, by [type]); the downstream
    handler is not called, nothing is stored in the context and nothing
    is verified. *)
Theorem unconfigured_is_answered_with_500
    (options : AccessMiddlewareOptions) (env : MoltbotEnv) (req : Request)
    (next : Next H) (c : Context H) :
  DEV_MODE env <> Some "true" ->
  E2E_TEST_MODE env <> Some "true" ->
  CF_ACCESS_TEAM_DOMAIN env = None \/ CF_ACCESS_TEAM_DOMAIN env = Some "" \/
  CF_ACCESS_AUD env = None \/ CF_ACCESS_AUD env = Some "" ->
  BASIC_AUTH_USER env = None \/ BASIC_AUTH_USER env = Some "" \/
  BASIC_AUTH_PASS env = None \/ BASIC_AUTH_PASS env = Some "" ->
  exists response,
    middleware options env req next c = mkRun c [] (inr (Some response)) /\
    statusCode response = 500%Z /\
    (type options = TypeJson ->
     response = Json
       [("error", "Authentication not configured");
        ("hint", "Set CF_ACCESS_TEAM_DOMAIN/CF_ACCESS_AUD for Zero Trust, or BASIC_AUTH_USER/BASIC_AUTH_PASS for Basic Auth.")]
       500) /\
    (type options = TypeHtml -> response = Html notConfiguredPage 500).
Proof.
  intros Hdev He2e Haccess Hbasic.
  rewrite access_skipped; try assumption; [|rewrite !whenTruthy_None; tauto].
  assert (Hnone : whenTruthy (BASIC_AUTH_USER env) = None \/
                  whenTruthy (BASIC_AUTH_PASS env) = None)
    by (rewrite !whenTruthy_None; tauto).
  destruct (type options) eqn:Htype;
    (destruct Hnone as [-> | Hnone];
     [| rewrite Hnone; destruct (whenTruthy (BASIC_AUTH_USER env))]);
    eexists; (split; [reflexivity|]); (split; [reflexivity|]);
    split; intros; first [reflexivity | discriminate].
Qed.

(** X17. With Access configured, a token that [verifyAccessJWT] accepts
    makes the middleware store the e-mail address and the name of the
    payload under ['accessUser'] and call the downstream handler in that
    context.  What the handler throws is thrown on: it is not turned into
    a 401. *)
Theorem accepted_token_reaches_the_handler
    (options : AccessMiddlewareOptions) (env : MoltbotEnv) (req : Request)
    (next : Next H) (c : Context H) (teamDomain expectedAud jwt : string)
    (payload : JWTPayload) :
  DEV_MODE env <> Some "true" ->
  E2E_TEST_MODE env <> Some "true" ->
  CF_ACCESS_TEAM_DOMAIN env = Some teamDomain -> teamDomain <> "" ->
  CF_ACCESS_AUD env = Some expectedAud -> expectedAud <> "" ->
  extractJWT req = Some jwt ->
  snd (verifyAccessJWT jwt teamDomain expectedAud (app c)) = inr payload ->
  let user := mkUser (payload_email payload) (payload_name payload) in
  let c' := mkContext (Some user)
              (fst (verifyAccessJWT jwt teamDomain expectedAud (app c))) in
  middleware options env req next c =
    mkRun (fst (next c'))
      [EvVerifyAccessJWT jwt teamDomain expectedAud (inr payload);
       EvNext (Some user) (snd (next c'))]
      (match snd (next c') with
       | inl thrown => inl thrown
       | inr _ => inr None
       end).
Proof.
  intros Hdev He2e Hteam HteamSet Haud HaudSet Hjwt Hverify user c'.
  unfold createAccessMiddleware.
  rewrite (skip_false env Hdev He2e).
  rewrite (proj2 (whenTruthy_Some _ teamDomain) (conj Hteam HteamSet)).
  rewrite (proj2 (whenTruthy_Some _ expectedAud) (conj Haud HaudSet)).
  rewrite extractJWT_truthy, Hjwt.
  unfold bind, tryCatch, callVerify, callNext, setAccessUser, consoleError, emit, call, ret.
  simpl. rewrite Hverify. simpl. subst c' user.
  destruct (next _) as [c2 [failure|[]]]; reflexivity.
Qed.

(** X19. With Access configured, a request that the middleware answers
    itself (the 401 or the redirect) leaves ['accessUser'] as it was and
    never reaches the downstream handler. *)
Theorem refused_request_stores_no_user
    (options : AccessMiddlewareOptions) (env : MoltbotEnv) (req : Request)
    (next : Next H) (c : Context H) (teamDomain expectedAud : string)
    (response : Response) :
  DEV_MODE env <> Some "true" ->
  E2E_TEST_MODE env <> Some "true" ->
  CF_ACCESS_TEAM_DOMAIN env = Some teamDomain -> teamDomain <> "" ->
  CF_ACCESS_AUD env = Some expectedAud -> expectedAud <> "" ->
  result (middleware options env req next c) = inr (Some response) ->
  accessUser (final (middleware options env req next c)) = accessUser c /\
  nexts (events (middleware options env req next c)) = [].
Proof.
  intros Hdev He2e Hteam HteamSet Haud HaudSet.
  unfold createAccessMiddleware.
  rewrite (skip_false env Hdev He2e).
  rewrite (proj2 (whenTruthy_Some _ teamDomain) (conj Hteam HteamSet)).
  rewrite (proj2 (whenTruthy_Some _ expectedAud) (conj Haud HaudSet)).
  rewrite extractJWT_truthy.
  destruct (extractJWT req) as [jwt|].
  - unfold bind, tryCatch, callVerify, callNext, setAccessUser, consoleError, emit, call, ret.
    simpl.
    destruct (snd (verifyAccessJWT jwt teamDomain expectedAud (app c))) as [thrown|payload];
      simpl.
    + destruct (type options); simpl; auto.
    + destruct (next _) as [c2 [failure|[]]]; simpl; discriminate.
  - destruct (type options); destruct (redirectOnMissing options) as [[|]|]; simpl; auto.
Qed.

(** X18. The middleware throws only what the downstream handler or the
    Basic Auth middleware threw: a token that is missing or that
    [verifyAccessJWT] rejects is answered, never thrown. *)
Theorem middleware_throws_only_downstream
    (options : AccessMiddlewareOptions) (env : MoltbotEnv) (req : Request)
    (next : Next H) (c : Context H) (thrown : Thrown) :
  result (middleware options env req next c) = inl thrown ->
  (exists user, In (EvNext user (inl thrown)) (events (middleware options env req next c))) \/
  (exists username password,
     In (EvBasicAuth username password (inl thrown))
        (events (middleware options env req next c))).
Proof.
  unfold createAccessMiddleware, bind, tryCatch, callVerify, callNext, callBasicAuth,
    setAccessUser, consoleError, emit, call, ret.
  simpl.
  repeat match goal with
         | |- context [match ?x with _ => _ end] =>
             lazymatch type of x with
             | Run _ _ _ => fail
             | _ => destruct x; simpl
             end
         end;
    intros Hthrown; try discriminate Hthrown;
    try (injection Hthrown as <-); try rewrite Hthrown;
    first [ left; eexists; simpl; choose_disjunct
          | right; do 2 eexists; simpl; choose_disjunct ].
Qed.

(** *** Reading the token from the [Cookie] header *)

Lemma split_hd_tl (sep : ascii) (s : string) :
  split sep s = hd "" (split sep s) :: tl (split sep s).
Proof.
  destruct s as [|ch s]; simpl; [reflexivity|].
  destruct (Ascii.eqb ch sep); [reflexivity|].
  destruct (split sep s); reflexivity.
Qed.

Lemma includes_char_cons (ch sep : ascii) (s : string) :
  includes (String ch s) (String sep "") = false ->
  Ascii.eqb ch sep = false /\ includes s (String sep "") = false.
Proof.
  cbn [includes]. intros Hfree. apply orb_false_iff in Hfree as [Hhere Hrest].
  split; [|exact Hrest].
  destruct (Ascii.eqb ch sep) eqn:Heq; [|reflexivity].
  apply Ascii.eqb_eq in Heq as ->. simpl in Hhere.
  destruct (ascii_dec sep sep) as [_|Hne]; [|contradiction Hne; reflexivity].
  destruct s; discriminate Hhere.
Qed.

(** A piece without separator in front of [s] joins the first piece of
    [s]. *)
Lemma split_app_free (sep : ascii) (a s : string) :
  includes a (String sep "") = false ->
  split sep (a +++ s) = (a +++ hd "" (split sep s)) :: tl (split sep s).
Proof.
  induction a as [|ch a IH]; intros Hfree.
  - simpl. apply split_hd_tl.
  - apply includes_char_cons in Hfree as [Hch Hrest].
    simpl. rewrite Hch, (IH Hrest). reflexivity.
Qed.

Lemma split_at_separator (sep : ascii) (s : string) :
  split sep (String sep s) = "" :: split sep s.
Proof. simpl. rewrite Ascii.eqb_refl. reflexivity. Qed.

Lemma trimEnd_cons (ch : ascii) (s : string) :
  isWhiteSpace ch = false -> trimEnd (String ch s) = String ch (trimEnd s).
Proof. intros Hch. simpl. rewrite Hch. destruct (trimEnd s); reflexivity. Qed.

Lemma trim_keeps_cookie_name (rest : string) :
  startsWith (trim ("CF_Authorization=" +++ rest)) "CF_Authorization=" = true.
Proof.
  unfold trim, startsWith.
  change (trimStart ("CF_Authorization=" +++ rest)) with ("CF_Authorization=" +++ rest).
  cbn [String.append]. rewrite !trimEnd_cons by reflexivity.
  apply prefix_iff. exists (trimEnd rest). reflexivity.
Qed.

(** X14. Without a usable header, a [Cookie] header that begins with
    [CF_Authorization=] gives the text after that name up to the next
    [;] or [=] or the end: the value of the cookie, cut at its first [=]
    sign; an empty value gives [null]. *)
Theorem extractJWT_reads_the_cookie (req : Request) (value tail : string) :
  header req "CF-Access-JWT-Assertion" = None \/
  header req "CF-Access-JWT-Assertion" = Some "" ->
  header req "Cookie" = Some ("CF_Authorization=" +++ value +++ tail) ->
  includes value ";" = false ->
  includes value "=" = false ->
  tail = "" \/ (exists rest, tail = String ";" rest) \/ (exists rest, tail = String "=" rest) ->
  extractJWT req = if truthy value then Some value else None.
Proof.
  intros Hheader Hcookie Hsemi Hequal Htail.
  assert (Hcut : hd "" (split "=" (hd "" (split ";" tail))) = "").
  { destruct Htail as [-> | [[rest ->] | [rest ->]]]; [reflexivity | reflexivity |].
    simpl. destruct (split ";" rest); reflexivity. }
  unfold extractJWT.
  rewrite (proj2 (whenTruthy_None _) Hheader), Hcookie.
  rewrite (split_app_free ";" "CF_Authorization=" (value +++ tail) eq_refl).
  rewrite (split_app_free ";" value tail Hsemi).
  cbn [hd tl find]. rewrite trim_keeps_cookie_name.
  change ("CF_Authorization=" +++ value +++ hd "" (split ";" tail))
    with ("CF_Authorization" +++ String "=" (value +++ hd "" (split ";" tail))).
  rewrite (split_app_free "=" "CF_Authorization" _ eq_refl).
  rewrite split_at_separator. cbn [hd tl nth_error].
  rewrite (split_app_free "=" value _ Hequal). cbn [nth_error].
  rewrite Hcut, GatewayFacts.append_empty.
  destruct value; reflexivity.
Qed.

End Middleware.

(** *** The theorems on concrete requests *)

Import Scenarios.

(** In dev mode a request with a forged cookie reaches the application as
    the dev user, although Access and Basic Auth are both configured. *)
Lemma dev_mode_bypasses_auth_witness :
  middleware (mkOptions TypeJson None) devEnv forged start =
    mkRun (mkContext (Some devUser) 1) [EvNext (Some devUser) (inr tt)] (inr None).
Proof.
  apply (dev_mode_bypasses_auth nat verifier denyAll (mkOptions TypeJson None) devEnv forged
           handler start).
  left; reflexivity.
Defined.

(** With Access configured: a request without token gets the redirect
    when [type] is ['html'] with [redirectOnMissing], and the JSON 401
    when [type] is ['json'] even with [redirectOnMissing]; the forged
    cookie is answered with the 401 page, not redirected, and the
    application is not reached; Basic Auth is not consulted although it
    is configured. *)
Lemma access_branch_gates_on_jwt_witness :
  result (middleware (mkOptions TypeHtml (Some true)) accessEnv anonymous start)
    = inr (Some (Redirect "https://team.cloudflareaccess.com" 302)) /\
  result (middleware (mkOptions TypeJson (Some true)) accessEnv anonymous start)
    = inr (Some (Json
        [("error", "Unauthorized");
         ("hint", "Missing Cloudflare Access JWT. Ensure this route is protected by Cloudflare Access.")]
        401)) /\
  (nexts (events (middleware (mkOptions TypeHtml (Some true)) accessEnv forged start)) = [] /\
   result (middleware (mkOptions TypeHtml (Some true)) accessEnv forged start)
     = inr (Some (Html (invalidSessionPage "team.cloudflareaccess.com") 401))) /\
  basicAuthCalls (events (middleware (mkOptions TypeHtml (Some true)) accessEnv forged start)) = [].
Proof.
  assert (Hdev : DEV_MODE accessEnv <> Some "true") by discriminate.
  assert (He2e : E2E_TEST_MODE accessEnv <> Some "true") by discriminate.
  assert (Hteam : "team.cloudflareaccess.com" <> "") by discriminate.
  assert (Haud : "aud-123" <> "") by discriminate.
  split; [|split].
  - destruct (access_branch_gates_on_jwt nat verifier denyAll (mkOptions TypeHtml (Some true))
                accessEnv anonymous handler start "team.cloudflareaccess.com" "aud-123"
                Hdev He2e eq_refl Hteam eq_refl Haud)
      as (_ & Hmissing & _).
    destruct (Hmissing eq_refl) as (_ & Hredirect & _).
    exact (Hredirect eq_refl eq_refl).
  - destruct (access_branch_gates_on_jwt nat verifier denyAll (mkOptions TypeJson (Some true))
                accessEnv anonymous handler start "team.cloudflareaccess.com" "aud-123"
                Hdev He2e eq_refl Hteam eq_refl Haud)
      as (_ & Hmissing & _).
    destruct (Hmissing eq_refl) as (_ & _ & Hjson & _).
    exact (Hjson eq_refl).
  - destruct (access_branch_gates_on_jwt nat verifier denyAll (mkOptions TypeHtml (Some true))
                accessEnv forged handler start "team.cloudflareaccess.com" "aud-123"
                Hdev He2e eq_refl Hteam eq_refl Haud)
      as (_ & _ & Hrejected & Hbasic & _).
    split; [|exact Hbasic].
    destruct (Hrejected "bad.jwt.token" (ErrorObj "Error" "JWT signature mismatch")
                eq_refl eq_refl) as (Hnexts & response & Hresult & _ & _ & Hhtml).
    split; [exact Hnexts|]. rewrite (Hhtml eq_refl) in Hresult. exact Hresult.
Defined.

(** *** The further properties on concrete requests *)

(** The header of [twice] is verified, not its cookie. *)
Lemma header_token_is_verified_witness :
  Auth.extractJWT twice = Some "good.jwt.token" /\
  exists rest,
    events (middleware (mkOptions TypeJson None) accessEnv twice start) =
      EvVerifyAccessJWT "good.jwt.token" "team.cloudflareaccess.com" "aud-123"
        (inr (mkPayload "ada@example.com" (Some "Ada"))) :: rest.
Proof.
  apply (header_token_is_verified nat verifier denyAll (mkOptions TypeJson None) accessEnv
           twice handler start "team.cloudflareaccess.com" "aud-123" "good.jwt.token");
    first [discriminate | reflexivity].
Defined.

(** The padding of the cookie of [padded] is lost. *)
Lemma extractJWT_reads_the_cookie_witness : Auth.extractJWT padded = Some "abc.def.ghi".
Proof.
  apply (extractJWT_reads_the_cookie padded "abc.def.ghi" "==; theme=dark");
    try reflexivity.
  - right; reflexivity.
  - right; right. eexists; reflexivity.
Defined.

(** With [basicEnv] a request with a good token is handed to Basic Auth. *)
Lemma basic_auth_is_the_fallback_witness :
  middleware (mkOptions TypeJson None) basicEnv signedIn start =
    mkRun (mkContext (Some basicAuthUser) 0) [EvBasicAuth "admin" "secret" (inr (Some (Html "Unauthorized" 401)))]
      (inr (Some (Html "Unauthorized" 401))).
Proof.
  apply (basic_auth_is_the_fallback nat verifier denyAll (mkOptions TypeJson None) basicEnv
           signedIn handler start "admin" "secret");
    first [discriminate | reflexivity | (left; reflexivity)].
Defined.

(** With [bareEnv] the answer is the 500. *)
Lemma unconfigured_is_answered_with_500_witness :
  exists response,
    middleware (mkOptions TypeHtml (Some true)) bareEnv signedIn start =
      mkRun start [] (inr (Some response)) /\
    statusCode response = 500%Z /\
    (TypeHtml = TypeJson ->
     response = Json
       [("error", "Authentication not configured");
        ("hint", "Set CF_ACCESS_TEAM_DOMAIN/CF_ACCESS_AUD for Zero Trust, or BASIC_AUTH_USER/BASIC_AUTH_PASS for Basic Auth.")]
       500) /\
    (TypeHtml = TypeHtml -> response = Html notConfiguredPage 500).
Proof.
  apply (unconfigured_is_answered_with_500 nat verifier denyAll (mkOptions TypeHtml (Some true))
           bareEnv signedIn handler start);
    first [discriminate | (right; right; right; reflexivity)
          | (right; right; left; reflexivity)].
Defined.

(** With [accessEnv] the good token reaches the application as Ada. *)
Lemma accepted_token_reaches_the_handler_witness :
  middleware (mkOptions TypeJson None) accessEnv signedIn start =
    mkRun (mkContext (Some (mkUser "ada@example.com" (Some "Ada"))) 1)
      [EvVerifyAccessJWT "good.jwt.token" "team.cloudflareaccess.com" "aud-123"
         (inr (mkPayload "ada@example.com" (Some "Ada")));
       EvNext (Some (mkUser "ada@example.com" (Some "Ada"))) (inr tt)]
      (inr None).
Proof.
  apply (accepted_token_reaches_the_handler nat verifier denyAll (mkOptions TypeJson None)
           accessEnv signedIn handler start "team.cloudflareaccess.com" "aud-123"
           "good.jwt.token" (mkPayload "ada@example.com" (Some "Ada")));
    first [discriminate | reflexivity].
Defined.

(** What the handler [failing] throws behind a good token is thrown on. *)
Lemma middleware_throws_only_downstream_witness :
  (exists user,
     In (EvNext user (inl handlerFailure))
        (events (createAccessMiddleware verifier denyAll (mkOptions TypeJson None)
                   accessEnv signedIn failing start))) \/
  (exists username password,
     In (EvBasicAuth username password (inl handlerFailure))
        (events (createAccessMiddleware verifier denyAll (mkOptions TypeJson None)
                   accessEnv signedIn failing start))).
Proof.
  apply (middleware_throws_only_downstream nat verifier denyAll (mkOptions TypeJson None)
           accessEnv signedIn failing start handlerFailure).
  reflexivity.
Defined.

(** The forged cookie of [forged] is refused and stores no user. *)
Lemma refused_request_stores_no_user_witness :
  accessUser (final (middleware (mkOptions TypeHtml (Some true)) accessEnv forged start)) = None /\
  nexts (events (middleware (mkOptions TypeHtml (Some true)) accessEnv forged start)) = [].
Proof.
  apply (refused_request_stores_no_user nat verifier denyAll (mkOptions TypeHtml (Some true))
           accessEnv forged handler start "team.cloudflareaccess.com" "aud-123"
           (Html (invalidSessionPage "team.cloudflareaccess.com") 401));
    first [discriminate | reflexivity].
Defined.

End AuthFacts.
